(** * Row expansion and main-domain labelling of [code/utils.py]

    A shallow embedding of the table helpers of the literature-review
    figures: [lstrip], [split_column_with_multiple_entries] and
    [extract_main_domains], together with the part of pandas they run on,
    and the properties of the row expander that the specification states.

    Python text is a [string] whose characters are the code points below
    256.  A pandas frame is a list of column labels, a list of index labels
    and the rows of cells; a frame that the caller holds is mutated by
    column assignment, which the embedding shows by returning the frame as
    the call leaves it next to the value or exception of the call.  A
    column that has rows and holds numbers and missing markers only is a
    column of numbers to pandas.  The regular-expression engine of Python, which
    pandas asks to split on a separator with special characters, is an
    argument of the embedding. *)

From Stdlib Require Import List String Ascii ZArith Arith Bool Lia.
Import ListNotations.
Open Scope string_scope.
Open Scope list_scope.

(** ** Python strings *)

Module Str.

(** [str.isspace] on one character: tab to carriage return, the four
    information separators, the space, next line and the no-break space. *)
Definition isspace (c : ascii) : bool :=
  let n := nat_of_ascii c in
  (((9 <=? n) && (n <=? 13)) || ((28 <=? n) && (n <=? 32))
   || (n =? 133) || (n =? 160))%nat.

(** [a.lstrip()] *)
Fixpoint lstrip (s : string) : string :=
  match s with
  | EmptyString => EmptyString
  | String c s' => if isspace c then lstrip s' else s
  end.

(** The upper-case letters below 256: A to Z and the accented capitals
    192 to 222 without the multiplication sign 215. *)
Definition isupper (c : ascii) : bool :=
  let n := nat_of_ascii c in
  (((65 <=? n) && (n <=? 90))
   || ((192 <=? n) && (n <=? 222) && negb (n =? 215)))%nat.

Definition lower_char (c : ascii) : ascii :=
  if isupper c then ascii_of_nat (nat_of_ascii c + 32) else c.

(** [a.lower()] *)
Fixpoint lower (s : string) : string :=
  match s with
  | EmptyString => EmptyString
  | String c s' => String (lower_char c) (lower s')
  end.

(** The scan of [x.split(sep)] for a separator that is not empty.  [skip]
    counts the characters of a separator just matched that are still to be
    passed over; outside a separator the character read joins the piece in
    progress, which is the head of what the rest of the scan returns. *)
Fixpoint split_from (sep : string) (skip : nat) (s : string) : list string :=
  match s with
  | EmptyString => [EmptyString]
  | String c s' =>
      match skip with
      | S k => split_from sep k s'
      | O =>
          if prefix sep s
          then EmptyString :: split_from sep (String.length sep - 1) s'
          else match split_from sep 0 s' with
               | p :: ps => String c p :: ps
               | [] => [String c EmptyString]
               end
      end
  end.

(** [all(p(c) for c in s)] *)
Fixpoint all (p : ascii -> bool) (s : string) : bool :=
  match s with
  | EmptyString => true
  | String c s' => p c && all p s'
  end.

(** The characters that the syntax of regular expressions reads
    specially: . ^ $ * + ? { } [ ] \ | ( ) *)
Definition special (c : ascii) : bool :=
  existsb (Ascii.eqb c)
    ["."; "^"; "$"; "*"; "+"; "?"; "{"; "}"; "["; "]"; "092"; "|"; "(";
     ")"]%char.

(** A pattern without special characters. *)
Definition plain (pat : string) : bool :=
  all (fun c => negb (special c)) pat.

(** The separators on which [Series.str.split] splits literally: those of
    one character, which pandas hands to [str.split], and those of two
    characters or more without special characters, which it compiles to a
    regular expression that matches the separator and nothing else. *)
Definition literal (sep : string) : bool :=
  (String.length sep =? 1)%nat
  || ((2 <=? String.length sep)%nat && plain sep).

(** [sep.join(pieces)] *)
Fixpoint join (sep : string) (pieces : list string) : string :=
  match pieces with
  | [] => EmptyString
  | [p] => p
  | p :: ps => (p ++ sep ++ join sep ps)%string
  end.


End Str.

(** ** Cells, exceptions, frames *)

(** A cell holds text, a number, the missing marker or, in the scratch
    column, a Python list of texts. *)
Inductive cell : Type :=
| Text (s : string)
| Num (z : Z)
| NaN
| Lst (l : list string).

(** The exceptions that reach the caller; [RegexError] is [re.error]. *)
Inductive error : Type :=
| KeyError
| TypeError
| ValueError
| AttributeError
| RegexError.

Inductive result (A : Type) : Type :=
| Ok (a : A)
| Raise (e : error).

Arguments Ok {A} a.
Arguments Raise {A} e.

Definition bind {A B : Type} (r : result A) (k : A -> result B) : result B :=
  match r with
  | Ok a => k a
  | Raise e => Raise e
  end.

Notation "x <- r ;; k" := (bind r (fun x => k))
  (at level 61, r at next level, right associativity).

(** [re.compile(pat).split]: the split of a text on the matches of a
    pattern, or [re.error] for a pattern that does not compile. *)
Definition regex_engine : Type := string -> result (string -> list string).

Record DataFrame : Type := mkDataFrame {
  columns : list string;
  index : list Z;
  data : list (list cell)
}.

(** A row as [iterrows] hands it out: the cells under their labels. *)
Definition Series : Type := list (string * cell).

(** A table in the sense of the specification: no column label twice, one
    index label per row, one cell per column in every row. *)
Definition well_formed (df : DataFrame) : Prop :=
  NoDup (columns df)
  /\ List.length (index df) = List.length (data df)
  /\ Forall (fun row => List.length row = List.length (columns df)) (data df).

Module Pandas.

Definition has_label (k : string) (labels : list string) : bool :=
  existsb (String.eqb k) labels.

(** All the cells of a row under label [k], in order. *)
Definition lookup_all (k : string) (items : Series) : list cell :=
  map snd (filter (fun kv => String.eqb (fst kv) k) items).

Definition cell_at (cols : list string) (row : list cell) (k : string) : cell :=
  hd NaN (lookup_all k (combine cols row)).

(** [df[col]] as far as [.str] is concerned: a label that is absent raises
    [KeyError], a label held by several columns selects a frame, which has
    no [.str]. *)
Definition getitem (df : DataFrame) (col : string) : result (list cell) :=
  match count_occ string_dec (columns df) col with
  | 0 => Raise KeyError
  | 1 => Ok (map (fun row => cell_at (columns df) row col) (data df))
  | _ => Raise AttributeError
  end.

Definition holds_text (x : cell) : bool :=
  match x with
  | Text _ | Lst _ => true
  | _ => false
  end.

(** [column.str]: the accessor is refused to a column of numbers, which is
    a column that is not empty and holds numbers and missing markers
    only. *)
Definition str_accessor (column : list cell) : result (list cell) :=
  match column with
  | [] => Ok column
  | _ => if existsb holds_text column then Ok column
         else Raise AttributeError
  end.

(** The splitting function that [.str.split(sep)] prepares before it
    visits the column.  A separator of one character is split on as
    [str.split] does; any other is compiled as a regular expression, which
    for two characters or more, none of them special, matches the
    separator itself, so that the split is the same scan; for the other
    patterns the engine says. *)
Definition splitter (re : regex_engine) (sep : string)
  : result (string -> list string) :=
  if Str.literal sep then Ok (Str.split_from sep 0) else re sep.

(** [.str.split(sep)] on one cell: the pieces of a text, the missing
    marker for anything else. *)
Definition str_split (f : string -> list string) (x : cell)
  : option (list string) :=
  match x with
  | Text s => Some (f s)
  | _ => None
  end.

(** [.apply(f)] over the split column: [f] iterates its argument, which
    the missing marker does not allow. *)
Fixpoint apply (f : list string -> list string)
    (xs : list (option (list string))) : result (list (list string)) :=
  match xs with
  | [] => Ok []
  | None :: _ => Raise TypeError
  | Some l :: xs' => ys <- apply f xs' ;; Ok (f l :: ys)
  end.

Definition set_cell (cols : list string) (k : string) (v : cell)
    (row : list cell) : list cell :=
  if has_label k cols
  then map (fun kv => if String.eqb (fst kv) k then v else snd kv)
           (combine cols row)
  else row ++ [v].

Definition labels_after (k : string) (cols : list string) : list string :=
  if has_label k cols then cols else cols ++ [k].

(** [df[k] = vs]: the column is overwritten where the label exists and
    appended after the last column where it does not. *)
Definition setitem (df : DataFrame) (k : string) (vs : list cell) : DataFrame :=
  {| columns := labels_after k (columns df);
     index := index df;
     data := map (fun rv => set_cell (columns df) k (snd rv) (fst rv))
                 (combine (data df) vs) |}.

(** [df[labels]]: every column under each label, label after label. *)
Definition select (df : DataFrame) (labels : list string) : result DataFrame :=
  if forallb (fun k => has_label k (columns df)) labels
  then Ok {| columns := flat_map (fun k => filter (String.eqb k) (columns df))
                                 labels;
             index := index df;
             data := map (fun row =>
                            flat_map (fun k =>
                                        lookup_all k (combine (columns df) row))
                                     labels)
                         (data df) |}
  else Raise KeyError.

(** [df.iterrows()] *)
Definition iterrows (df : DataFrame) : list (Z * Series) :=
  combine (index df) (map (combine (columns df)) (data df)).

(** [items[labels].tolist()] *)
Definition series_select (items : Series) (labels : list string)
  : result (list cell) :=
  if forallb (fun k => has_label k (map fst items)) labels
  then Ok (flat_map (fun k => lookup_all k items) labels)
  else Raise KeyError.

(** The values that [for m in items[k]] runs through.  Under a label that
    the row holds once [items[k]] is the cell; held several times, it is
    the series of those cells. *)
Definition iter_item (items : Series) (k : string) : result (list cell) :=
  match lookup_all k items with
  | [] => Raise KeyError
  | [Lst l] => Ok (map Text l)
  | [Text s] =>
      Ok (map (fun c => Text (String c EmptyString)) (list_ascii_of_string s))
  | [_] => Raise TypeError
  | vs => Ok vs
  end.

(** [pd.DataFrame(rows, columns=cols)] for rows of one length, as the
    expander builds them: the width must be the number of labels; the index
    is the default range. *)
Definition of_rows (rows : list (list cell)) (cols : list string)
  : result DataFrame :=
  if forallb (fun r => (List.length r =? List.length cols)%nat) rows
  then Ok {| columns := cols;
             index := map Z.of_nat (seq 0 (List.length rows));
             data := rows |}
  else Raise ValueError.

End Pandas.

(** ** The functions of [code/utils.py] *)

(** [lstrip(list_of_strs, lower)]: leading white space goes from every
    text, and the text is made lower case when [lower] is set. *)
Definition lstrip (list_of_strs : list string) (lower : bool) : list string :=
  map (fun a => if lower then Str.lower (Str.lstrip a) else Str.lstrip a)
      list_of_strs.

(** The default of [sep]: a semicolon and a line feed. *)
Definition default_sep : string :=
  String ";"%char (String (ascii_of_nat 10) EmptyString).

(** The [ref_col] argument: one label, or a list of labels. *)
Inductive ref_arg : Type :=
| RefStr (s : string)
| RefList (l : list string).

(** [if not isinstance(ref_col, list): ref_col = [ref_col]] *)
Definition as_list (ref_col : ref_arg) : list string :=
  match ref_col with
  | RefStr s => [s]
  | RefList l => l
  end.

(** [for m in items['temp']: value_per_row.append([i, *items[ref_col].tolist(), m])] *)
Fixpoint append_values (i : Z) (items : Series) (ref_col : list string)
    (ms : list cell) (value_per_row : list (list cell))
  : result (list (list cell)) :=
  match ms with
  | [] => Ok value_per_row
  | m :: ms' =>
      ids <- Pandas.series_select items ref_col ;;
      append_values i items ref_col ms'
                    (value_per_row ++ [Num i :: ids ++ [m]])
  end.

(** [for i, items in df[[*ref_col, 'temp']].iterrows(): ...] *)
Fixpoint each_row (ref_col : list string) (rows : list (Z * Series))
    (value_per_row : list (list cell)) : result (list (list cell)) :=
  match rows with
  | [] => Ok value_per_row
  | (i, items) :: rows' =>
      ms <- Pandas.iter_item items "temp" ;;
      value_per_row' <- append_values i items ref_col ms value_per_row ;;
      each_row ref_col rows' value_per_row'
  end.

(** The right-hand side of line 78:
    [df[col].str.split(sep).apply(lstrip, lower=lower)]. *)
Definition split_step (re : regex_engine) (df : DataFrame) (col sep : string)
    (lower : bool) : result (list (list string)) :=
  column <- Pandas.getitem df col ;;
  column <- Pandas.str_accessor column ;;
  f <- Pandas.splitter re sep ;;
  Pandas.apply (fun l => lstrip l lower) (map (Pandas.str_split f) column).

(** [split_column_with_multiple_entries(df, col, ref_col, sep, lower)].
    The first component is the caller's frame as the call leaves it, the
    second the frame returned or the exception raised. *)
Definition split_column_with_multiple_entries (re : regex_engine)
    (df : DataFrame) (col : string) (ref_col : ref_arg) (sep : string)
    (lower : bool) : DataFrame * result DataFrame :=
  match split_step re df col sep lower with
  | Raise e => (df, Raise e)
  | Ok temp =>
      let df := Pandas.setitem df "temp" (map Lst temp) in
      let ref_col := as_list ref_col in
      (df,
       sub <- Pandas.select df (ref_col ++ ["temp"]) ;;
       value_per_row <- each_row ref_col (Pandas.iterrows sub) [] ;;
       Pandas.of_rows value_per_row ("paper nb" :: ref_col ++ [col]))
  end.

Definition main_domains : list string :=
  ["Epilepsy"; "Sleep"; "BCI"; "Affective"; "Cognitive";
   "Improvement of processing tools"; "Generation of data"].

(** One entry of [row.isin(values)] *)
Definition isin (values : list string) (x : cell) : bool :=
  match x with
  | Text s => existsb (String.eqb s) values
  | _ => false
  end.

(** [row[row.isin(main_domains)].values[0] if any(row.isin(main_domains))
     else 'Others'] *)
Definition main_domain (row : list cell) : cell :=
  if existsb (isin main_domains) row
  then hd NaN (filter (isin main_domains) row)
  else Text "Others".

(** [extract_main_domains(df)]: the frame is changed in place and returned. *)
Definition extract_main_domains (df : DataFrame) : result DataFrame :=
  domains_df <-
    Pandas.select df ["Domain 1"; "Domain 2"; "Domain 3"; "Domain 4"] ;;
  Ok (Pandas.setitem df "Main domain" (map main_domain (data domains_df))).

(** ** The vocabulary of the specification *)

(** The target column exists and holds text in every row. *)
Definition text_column (df : DataFrame) (col : string) : Prop :=
  In col (columns df)
  /\ Forall (fun row => exists s, Pandas.cell_at (columns df) row col = Text s)
            (data df).

(** The identifier columns exist, are named once each, and none is the
    scratch column of the expander. *)
Definition identifier_columns (df : DataFrame) (ref_col : list string) : Prop :=
  NoDup ref_col
  /\ ~ In "temp" ref_col
  /\ Forall (fun k => In k (columns df)) ref_col.

Definition expandable (df : DataFrame) (col : string) (ref_col : ref_arg)
  : Prop :=
  well_formed df /\ text_column df col /\ identifier_columns df (as_list ref_col).

(** Step 2 of the algorithm on one substring. *)
Definition processed (lower : bool) (a : string) : string :=
  if lower then Str.lower (Str.lstrip a) else Str.lstrip a.

(** Step 1 of the algorithm on one cell, [f] being the split on the
    separator. *)
Definition pieces (f : string -> list string) (x : cell) : list string :=
  match x with
  | Text s => f s
  | _ => []
  end.

Definition identifiers (df : DataFrame) (ref_col : list string)
    (row : list cell) : list cell :=
  map (Pandas.cell_at (columns df) row) ref_col.

(** Step 3: the rows that the input row [row] under index label [i] gives. *)
Definition rows_of (df : DataFrame) (col : string) (ref_col : list string)
    (f : string -> list string) (lower : bool) (i : Z) (row : list cell)
  : list (list cell) :=
  map (fun a => Num i :: identifiers df ref_col row ++ [Text (processed lower a)])
      (pieces f (Pandas.cell_at (columns df) row col)).

(** Step 4: the rows of the expanded table. *)
Definition expanded (df : DataFrame) (col : string) (ref_col : list string)
    (f : string -> list string) (lower : bool) : list (list cell) :=
  flat_map (fun ir => rows_of df col ref_col f lower (fst ir) (snd ir))
           (combine (index df) (data df)).

(** The row-index values of an expanded table, top to bottom. *)
Definition paper_nb (out : DataFrame) : list Z :=
  map (fun r => match r with Num z :: _ => z | _ => 0%Z end) (data out).



(** The first of the cells that is one of the main domains, [Others] when
    there is none. *)
Fixpoint first_main_domain (cells : list cell) : cell :=
  match cells with
  | [] => Text "Others"
  | x :: cells' => if isin main_domains x then x else first_main_domain cells'
  end.

(** ** Sample tables *)

(** An engine that compiles no pattern.  The sample runs split on literal
    separators, for which the engine is not asked. *)
Definition no_regex : regex_engine := fun _ => Raise RegexError.

(** Two papers, the first with three numbers of subjects. *)
Definition papers : DataFrame :=
  {| columns := ["Citation"; "Subjects"];
     index := [0%Z; 1%Z];
     data := [[Text "A1"; Text "15, 203, 23"]; [Text "B2"; Text " Seven"]] |}.


(** A paper whose number of subjects is missing. *)
Definition papers_with_gap : DataFrame :=
  {| columns := ["Citation"; "Subjects"];
     index := [0%Z; 1%Z];
     data := [[Text "A1"; Text "15, 203, 23"]; [Text "B2"; NaN]] |}.

(** A cell that starts and ends with the separator and has two
    separators side by side. *)
Definition papers_with_empties : DataFrame :=
  {| columns := ["Citation"; "Subjects"];
     index := [0%Z];
     data := [[Text "A1"; Text ", 15, , 23, "]] |}.


Definition papers_by_domain : DataFrame :=
  {| columns := ["Citation"; "Domain 1"; "Domain 2"; "Domain 3"; "Domain 4"];
     index := [0%Z; 1%Z];
     data := [[Text "A1"; Text "EEG"; Text "Sleep"; NaN; Text "BCI"];
              [Text "B2"; Text "Monitoring"; NaN; NaN; NaN]] |}.

(** ** The other helpers of [code/utils.py] *)

Definition backslash : ascii := "092"%char.

Definition newline : ascii := "010"%char.

Module Py.

(** [sub in s] for two texts *)
Fixpoint contains (sub s : string) : bool :=
  prefix sub s
  || match s with
     | EmptyString => false
     | String _ s' => contains sub s'
     end.

(** [s.split()]: the words between runs of white space.  A character that
    is not white space opens a word when white space or the end follows
    it, and joins the word that the rest of the text starts with
    otherwise. *)
Fixpoint split_whitespace (s : string) : list string :=
  match s with
  | EmptyString => []
  | String c s' =>
      if Str.isspace c then split_whitespace s'
      else match s' with
           | EmptyString => [String c EmptyString]
           | String d _ =>
               if Str.isspace d
               then String c EmptyString :: split_whitespace s'
               else match split_whitespace s' with
                    | w :: ws => String c w :: ws
                    | [] => [String c EmptyString]
                    end
           end
  end.

End Py.

(** The dictionary [conv] of [tex_escape], in the order of the source. *)
Definition conv : list (ascii * string) :=
  [("&"%char, String backslash "&");
   ("%"%char, String backslash "%");
   ("$"%char, String backslash "$");
   ("#"%char, String backslash "#");
   ("_"%char, String backslash "_");
   ("{"%char, String backslash "{");
   ("}"%char, String backslash "}");
   ("~"%char, String backslash "textasciitilde{}");
   ("^"%char, String backslash "^{}");
   (backslash, String backslash "textbackslash{}");
   ("<"%char, String backslash "textless{}");
   (">"%char, String backslash "textgreater{}")].

(** [conv[c]], for [c] a key of the dictionary. *)
Fixpoint conv_get (table : list (ascii * string)) (c : ascii) : option string :=
  match table with
  | [] => None
  | (k, v) :: table' => if Ascii.eqb k c then Some v else conv_get table' c
  end.

(** [tex_escape(text)].  The pattern is the alternation of the keys, each
    one character, so [regex.sub] visits the text character by character:
    a key is replaced by its entry, any other character is kept. *)
Fixpoint tex_escape (text : string) : string :=
  match text with
  | EmptyString => EmptyString
  | String c text' =>
      match conv_get conv c with
      | Some escaped => (escaped ++ tex_escape text')%string
      | None => String c (tex_escape text')
      end
  end.

(** The loop of [wrap_text] over [string_parts[1:]], with [out_string] and
    [line_len] as they stand. *)
Fixpoint wrap_loop (max_char : Z) (parts : list string) (out_string : string)
    (line_len : nat) : string :=
  match parts with
  | [] => out_string
  | i :: parts' =>
      if (max_char <? Z.of_nat (line_len + 1 + String.length i))%Z
      then wrap_loop max_char parts'
                     (out_string ++ String newline EmptyString ++ i)%string
                     (String.length i)
      else wrap_loop max_char parts'
                     (out_string ++ " " ++ i)%string
                     (line_len + (String.length i + 1))
  end.

(** [wrap_text(string, max_char)] *)
Definition wrap_text (string : String.string) (max_char : Z) : String.string :=
  let string_parts := Py.split_whitespace string in
  if ((max_char <? Z.of_nat (String.length string))%Z
      && (1 <? List.length string_parts)%nat)%bool
  then match string_parts with
       | first :: rest => wrap_loop max_char rest first (String.length first)
       | [] => string
       end
  else string.

(** [np.isnan(x) if isinstance(x, float) else False]: of the cells only
    the missing marker is a float that is not a number. *)
Definition is_nan (x : cell) : bool :=
  match x with
  | NaN => true
  | _ => false
  end.

(** A value for [replace_by] that is one value: a text, a number or the
    missing marker.  (A list would be spread over the cells by [df.loc].) *)
Inductive scalar : Type :=
| SText (s : string)
| SNum (z : Z)
| SNaN.

Definition cell_of (v : scalar) : cell :=
  match v with
  | SText s => Text s
  | SNum z => Num z
  | SNaN => NaN
  end.

(** [df.loc[mask, k] = v] on one row, for a label that one column holds
    and one value [v]. *)
Definition loc_set (cols : list string) (k : string) (mask : bool)
    (v : scalar) (row : list cell) : list cell :=
  if mask then Pandas.set_cell cols k (cell_of v) row else row.

(** [replace_nans_in_column(df, column_name, replace_by)]: the frame is
    changed in place and returned.  A label that no column holds raises
    [KeyError]; under a label that several columns hold the selection is a
    frame, whose mask is labelled by columns and does not align with the
    rows ([IndexingError], here [ValueError]). *)
Definition replace_nans_in_column (df : DataFrame) (column_name : string)
    (replace_by : scalar) : result DataFrame :=
  match count_occ string_dec (columns df) column_name with
  | 0 => Raise KeyError
  | 1 =>
      let nan_ind :=
        map (fun row => is_nan (Pandas.cell_at (columns df) row column_name))
            (data df) in
      Ok {| columns := columns df;
            index := index df;
            data := map (fun rm => loc_set (columns df) column_name (snd rm)
                                           replace_by (fst rm))
                        (combine (data df) nan_ind) |}
  | _ => Raise ValueError
  end.

(** [extract_model_type(x)] of [load_reported_results_data]: [in] looks for
    a piece of a text, for an element of a list, and does not apply to a
    number. *)
Definition extract_model_type (x : cell) : result string :=
  let has (sub : string) : result bool :=
    match x with
    | Text s => Ok (Py.contains sub s)
    | Lst l => Ok (existsb (String.eqb sub) l)
    | _ => Raise TypeError
    end in
  arch <- has "arch" ;;
  if arch then Ok "Proposed"
  else
    trad <- has "trad" ;;
    if trad then Ok "Baseline (traditional)"
    else
      dl <- has "dl" ;;
      if dl then Ok "Baseline (deep learning)"
      else Raise ValueError.

(** ** Vocabulary for the other helpers *)

(** The characters that [tex_escape] replaces. *)
Definition is_key (c : ascii) : bool :=
  match conv_get conv c with
  | Some _ => true
  | None => false
  end.

(** The characters that LaTeX reads as commands when they stand alone and
    that [tex_escape] writes after a backslash: & % $ # _ *)
Definition reserved (c : ascii) : bool :=
  existsb (Ascii.eqb c) ["&"; "%"; "$"; "#"; "_"]%char.

(** Some reserved character of [s] does not stand right after a backslash;
    [prev] is the character before [s]. *)
Fixpoint unguarded (prev : ascii) (s : string) : bool :=
  match s with
  | EmptyString => false
  | String c s' =>
      (reserved c && negb (Ascii.eqb prev backslash)) || unguarded c s'
  end.

(** The character whose escape an escaped text starts with. *)
Definition first_escaped (s : string) : ascii :=
  match s with
  | EmptyString => backslash
  | String c s' =>
      if Ascii.eqb c backslash
      then match s' with
           | EmptyString => c
           | String d r =>
               if Ascii.eqb d "t"
               then match r with
                    | String _ (String _ (String _ (String e _))) =>
                        if Ascii.eqb e "a" then "~"%char
                        else if Ascii.eqb e "b" then backslash
                        else if Ascii.eqb e "l" then "<"%char
                        else ">"%char
                    | _ => d
                    end
               else d
           end
      else c
  end.

(** What one character becomes. *)
Definition escape_char (c : ascii) : string :=
  match conv_get conv c with
  | Some escaped => escaped
  | None => String c EmptyString
  end.

(** A word of [s.split()]: not empty, no white space. *)
Definition is_word (w : string) : bool :=
  negb (String.eqb w EmptyString)
  && Str.all (fun c => negb (Str.isspace c)) w.

Definition no_newline (l : string) : bool :=
  Str.all (fun c => negb (Ascii.eqb c newline)) l.


(** ** Proof steps on concrete tables *)

Ltac table_facts :=
  repeat match goal with
         | |- _ /\ _ => split
         | |- NoDup _ => constructor
         | |- Forall _ _ => constructor
         | |- ~ _ => simpl; intuition discriminate
         | |- exists s, _ = Text s => eexists; reflexivity
         | |- In _ _ => simpl; tauto
         | |- _ = _ => reflexivity
         | |- _ <> _ => discriminate
         end.

Ltac table_expandable :=
  unfold expandable, well_formed, text_column, identifier_columns;
  table_facts.


(** ** Python strings *)

Section Strings.


Lemma length_lower (s : string) :
  String.length (Str.lower s) = String.length s.
Proof.
  induction s as [|c s IH]; simpl; [reflexivity | now f_equal].
Qed.


Lemma append_assoc (a b c : string) :
  ((a ++ b) ++ c = a ++ b ++ c)%string.
Proof.
  induction a as [|x a IH]; simpl; [reflexivity | now f_equal].
Qed.

Lemma length_append (a b : string) :
  String.length (a ++ b) = String.length a + String.length b.
Proof.
  induction a as [|x a IH]; simpl; [reflexivity | now f_equal].
Qed.

Lemma prefix_append (sep rest : string) : prefix sep (sep ++ rest) = true.
Proof.
  induction sep as [|c sep IH]; simpl; [now destruct rest|].
  destruct (ascii_dec c c); [assumption | congruence].
Qed.



Lemma split_from_skip (sep x rest : string) :
  Str.split_from sep (String.length x) (x ++ rest) = Str.split_from sep 0 rest.
Proof.
  induction x as [|c x IH]; simpl; [|assumption].
  destruct rest; reflexivity.
Qed.






Lemma literal_nonempty (sep : string) :
  Str.literal sep = true -> sep <> EmptyString.
Proof. intros H ->. discriminate H. Qed.

End Strings.


(** ** Labels and lookups *)

Section Lookup.

Import Pandas.

Lemma has_label_In (k : string) (labels : list string) :
  has_label k labels = true <-> In k labels.
Proof.
  unfold has_label. rewrite existsb_exists. split.
  - intros [x [Hin Heq]]. apply String.eqb_eq in Heq. now subst.
  - intros Hin. exists k. split; [assumption | apply String.eqb_refl].
Qed.

Lemma has_label_false (k : string) (labels : list string) :
  has_label k labels = false <-> ~ In k labels.
Proof.
  rewrite <- has_label_In. destruct (has_label k labels);
    intuition congruence.
Qed.

Lemma lookup_all_app (k : string) (xs ys : Series) :
  lookup_all k (xs ++ ys) = lookup_all k xs ++ lookup_all k ys.
Proof.
  unfold lookup_all. now rewrite filter_app, map_app.
Qed.

Lemma lookup_all_absent (k : string) (cols : list string) (row : list cell) :
  ~ In k cols -> lookup_all k (combine cols row) = [].
Proof.
  revert row. induction cols as [|c cols IH]; intros [|x row] Hk; try reflexivity.
  unfold lookup_all. simpl.
  destruct (String.eqb_spec c k) as [->|Hne].
  - exfalso. apply Hk. now left.
  - apply IH. intros Hin. apply Hk. now right.
Qed.

Lemma lookup_all_present (k : string) (cols : list string) (row : list cell) :
  NoDup cols -> In k cols -> List.length row = List.length cols ->
  lookup_all k (combine cols row) = [cell_at cols row k].
Proof.
  intros Hnd Hin Hlen. unfold cell_at.
  enough (exists c, lookup_all k (combine cols row) = [c]) as [c ->] by reflexivity.
  revert row Hlen Hin.
  induction Hnd as [|c cols Hc Hnd IH]; intros [|x row] Hlen Hin;
    simpl in *; try contradiction; try discriminate.
  unfold lookup_all. simpl.
  destruct (String.eqb_spec c k) as [->|Hne].
  - exists x. simpl. f_equal. now apply lookup_all_absent.
  - destruct Hin as [->|Hin]; [congruence|].
    apply IH; [lia | assumption].
Qed.

Lemma cell_at_head (k : string) (cols : list string) (x : cell)
    (row : list cell) :
  cell_at (k :: cols) (x :: row) k = x.
Proof.
  unfold cell_at, lookup_all. simpl. now rewrite String.eqb_refl.
Qed.

Lemma cell_at_tail (c k : string) (cols : list string) (x : cell)
    (row : list cell) :
  c <> k -> cell_at (c :: cols) (x :: row) k = cell_at cols row k.
Proof.
  intros Hne. unfold cell_at, lookup_all. simpl.
  destruct (String.eqb_spec c k); [contradiction | reflexivity].
Qed.

Lemma map_cell_at_self (cols : list string) (row : list cell) :
  NoDup cols -> List.length row = List.length cols ->
  map (cell_at cols row) cols = row.
Proof.
  intros Hnd. revert row.
  induction Hnd as [|c cols Hc Hnd IH]; intros [|x row] Hlen;
    simpl in *; try discriminate; try reflexivity.
  rewrite cell_at_head. f_equal.
  rewrite <- (IH row) at 2 by lia.
  apply map_ext_in. intros k Hk. apply cell_at_tail.
  intros ->. contradiction.
Qed.

Lemma flat_map_singleton {A B : Type} (f : A -> list B) (g : A -> B)
    (l : list A) :
  (forall a, In a l -> f a = [g a]) -> flat_map f l = map g l.
Proof.
  induction l as [|a l IH]; intros H; simpl; [reflexivity|].
  rewrite (H a) by now left. simpl. f_equal. apply IH.
  intros b Hb. apply H. now right.
Qed.

Lemma filter_eqb_unique (k : string) (cols : list string) :
  NoDup cols -> In k cols -> filter (String.eqb k) cols = [k].
Proof.
  intros Hnd. induction Hnd as [|c cols Hc Hnd IH]; intros Hin;
    simpl in *; [contradiction|].
  destruct (String.eqb_spec k c) as [->|Hne].
  - f_equal. clear IH Hin Hnd. induction cols as [|d cols IH]; [reflexivity|].
    simpl. destruct (String.eqb_spec c d) as [->|_].
    + exfalso. apply Hc. now left.
    + apply IH. intros H. apply Hc. now right.
  - destruct Hin as [->|Hin]; [congruence | now apply IH].
Qed.

(** *** Column assignment on one row *)

Lemma combine_set_cell (cols : list string) (k : string) (v : cell)
    (row : list cell) :
  List.length row = List.length cols ->
  combine (labels_after k cols) (set_cell cols k v row)
  = if has_label k cols
    then map (fun kv => (fst kv, if String.eqb (fst kv) k then v else snd kv))
             (combine cols row)
    else combine cols row ++ [(k, v)].
Proof.
  intros Hlen. unfold labels_after, set_cell.
  destruct (has_label k cols).
  - clear Hlen. revert row.
    induction cols as [|c cols IH]; intros [|x row]; simpl; try reflexivity.
    f_equal. apply IH.
  - revert row Hlen.
    induction cols as [|c cols IH]; intros [|x row] Hlen;
      simpl in *; try discriminate; try reflexivity.
    f_equal. apply IH. lia.
Qed.

Lemma lookup_set_other (cols : list string) (k k' : string) (v : cell)
    (row : list cell) :
  k' <> k -> List.length row = List.length cols ->
  lookup_all k' (combine (labels_after k cols) (set_cell cols k v row))
  = lookup_all k' (combine cols row).
Proof.
  intros Hne Hlen. rewrite combine_set_cell by assumption.
  destruct (has_label k cols).
  - unfold lookup_all. induction (combine cols row) as [|[c x] l IH];
      [reflexivity|]. simpl.
    destruct (String.eqb_spec c k') as [->|Hc]; simpl.
    + destruct (String.eqb_spec k' k); [contradiction|]. now f_equal.
    + assumption.
  - rewrite lookup_all_app. unfold lookup_all at 2. simpl.
    destruct (String.eqb_spec k k'); [congruence|]. apply app_nil_r.
Qed.

Lemma lookup_set_same (cols : list string) (k : string) (v : cell)
    (row : list cell) :
  NoDup cols -> List.length row = List.length cols ->
  lookup_all k (combine (labels_after k cols) (set_cell cols k v row)) = [v].
Proof.
  intros Hnd Hlen. rewrite combine_set_cell by assumption.
  destruct (has_label k cols) eqn:Hk.
  - apply has_label_In in Hk.
    pose proof (lookup_all_present k cols row Hnd Hk Hlen) as Hone.
    revert Hone. generalize (cell_at cols row k). intros c.
    unfold lookup_all. induction (combine cols row) as [|[d x] l IH];
      simpl; [discriminate|].
    destruct (String.eqb_spec d k) as [->|Hd]; simpl.
    + intros Hone. injection Hone as _ Hnil. f_equal.
      clear IH. induction l as [|[e y] l IH]; [reflexivity|]. simpl in *.
      destruct (String.eqb_spec e k); [discriminate | now apply IH].
    + assumption.
  - apply has_label_false in Hk. rewrite lookup_all_app.
    rewrite lookup_all_absent by assumption.
    unfold lookup_all. simpl. now rewrite String.eqb_refl.
Qed.

Lemma length_set_cell (cols : list string) (k : string) (v : cell)
    (row : list cell) :
  List.length row = List.length cols ->
  List.length (set_cell cols k v row) = List.length (labels_after k cols).
Proof.
  intros Hlen. unfold set_cell, labels_after. destruct (has_label k cols).
  - rewrite length_map, length_combine. lia.
  - rewrite !length_app. simpl. lia.
Qed.

Lemma NoDup_labels_after (k : string) (cols : list string) :
  NoDup cols -> NoDup (labels_after k cols).
Proof.
  intros Hnd. unfold labels_after. destruct (has_label k cols) eqn:Hk;
    [assumption|].
  apply has_label_false in Hk. apply NoDup_app; [assumption | | ].
  - constructor; [intros [] | constructor].
  - intros x Hx [<-|[]]. contradiction.
Qed.

Lemma In_labels_after (k k' : string) (cols : list string) :
  In k' (labels_after k cols) <-> In k' cols \/ k' = k.
Proof.
  unfold labels_after. destruct (has_label k cols) eqn:Hk.
  - apply has_label_In in Hk. split; [now left|].
    intros [H| ->]; assumption.
  - rewrite in_app_iff. simpl. intuition congruence.
Qed.

End Lookup.


(** ** The expander on a well-formed table *)

Section Expander.

Import Pandas.

Lemma bind_Ok {A B : Type} (r : result A) (k : A -> result B) (b : B) :
  bind r k = Ok b -> exists a, r = Ok a /\ k a = Ok b.
Proof.
  destruct r as [a|e]; simpl; [|discriminate]. intros H. now exists a.
Qed.

Lemma lstrip_processed (l : list string) (lower : bool) :
  lstrip l lower = map (processed lower) l.
Proof. reflexivity. Qed.

Lemma combine_map_r {A B C : Type} (f : B -> C) (xs : list A) (ys : list B) :
  combine xs (map f ys) = map (fun p => (fst p, f (snd p))) (combine xs ys).
Proof.
  revert ys. induction xs as [|x xs IH]; intros [|y ys]; simpl;
    try reflexivity. f_equal. apply IH.
Qed.

Lemma combine_self_map {A B : Type} (f : A -> B) (xs : list A) :
  combine xs (map f xs) = map (fun x => (x, f x)) xs.
Proof.
  induction xs as [|x xs IH]; simpl; [reflexivity | now f_equal].
Qed.

Lemma str_accessor_text (column : list cell) :
  Forall (fun x => exists s, x = Text s) column ->
  Pandas.str_accessor column = Ok column.
Proof.
  intros H. destruct H as [|x column [s ->] _]; reflexivity.
Qed.

Lemma splitter_literal (re : regex_engine) (sep : string) :
  Str.literal sep = true ->
  Pandas.splitter re sep = Ok (Str.split_from sep 0).
Proof. intros H. unfold Pandas.splitter. now rewrite H. Qed.


Lemma getitem_unique (df : DataFrame) (col : string) :
  NoDup (columns df) -> In col (columns df) ->
  getitem df col
  = Ok (map (fun row => cell_at (columns df) row col) (data df)).
Proof.
  intros Hnd Hin. unfold getitem.
  rewrite (proj1 (NoDup_count_occ' string_dec (columns df)) Hnd col Hin).
  reflexivity.
Qed.


Lemma apply_text (g : list string -> list string)
    (f : string -> list string) (cells : list cell) :
  Forall (fun x => exists s, x = Text s) cells ->
  apply g (map (str_split f) cells) = Ok (map (fun x => g (pieces f x)) cells).
Proof.
  induction 1 as [|x cells [s ->] _ IH]; simpl; [reflexivity|].
  now rewrite IH.
Qed.

(** The split step (the right-hand side of line 78) on a text column. *)
Lemma split_step_text (re : regex_engine) (df : DataFrame) (col sep : string)
    (lower : bool) (f : string -> list string) :
  NoDup (columns df) -> text_column df col ->
  splitter re sep = Ok f ->
  split_step re df col sep lower
  = Ok (map (fun row => lstrip (pieces f (cell_at (columns df) row col)) lower)
            (data df)).
Proof.
  intros Hnd [Hin Htext] Hf. unfold split_step.
  rewrite getitem_unique by assumption. cbn [bind].
  assert (Hcells : Forall (fun x => exists s, x = Text s)
                          (map (fun row => cell_at (columns df) row col)
                               (data df)))
    by (apply Forall_map; exact Htext).
  rewrite str_accessor_text by assumption. cbn [bind].
  rewrite Hf. cbn [bind]. rewrite apply_text by assumption.
  now rewrite map_map.
Qed.

Lemma setitem_map (df : DataFrame) (k : string) (f : list cell -> cell) :
  setitem df k (map f (data df))
  = {| columns := labels_after k (columns df);
       index := index df;
       data := map (fun row => set_cell (columns df) k (f row) row) (data df) |}.
Proof.
  unfold setitem. f_equal. rewrite combine_self_map, map_map. reflexivity.
Qed.

Lemma select_after_setitem (df : DataFrame) (ref_col : list string)
    (f : list cell -> cell) :
  well_formed df -> identifier_columns df ref_col ->
  select (setitem df "temp" (map f (data df))) (ref_col ++ ["temp"])
  = Ok {| columns := ref_col ++ ["temp"];
          index := index df;
          data := map (fun row => identifiers df ref_col row ++ [f row])
                      (data df) |}.
Proof.
  intros (Hnd & _ & Hrows) (_ & Htemp & Hin).
  rewrite setitem_map. unfold select. cbn [columns index data].
  assert (Hall : forall k, In k (ref_col ++ ["temp"]) ->
                           In k (labels_after "temp" (columns df))).
  { intros k Hk. apply In_labels_after. apply in_app_or in Hk.
    destruct Hk as [Hk|[<-|[]]]; [left | now right].
    rewrite Forall_forall in Hin. now apply Hin. }
  replace (forallb _ (ref_col ++ ["temp"])) with true.
  2:{ symmetry. apply forallb_forall. intros k Hk.
      apply has_label_In. now apply Hall. }
  f_equal. f_equal.
  - rewrite (flat_map_singleton _ (fun k => k)); [apply map_id|].
    intros k Hk. apply filter_eqb_unique;
      [now apply NoDup_labels_after | now apply Hall].
  - rewrite map_map. apply map_ext_in. intros row Hrow.
    rewrite Forall_forall in Hrows. specialize (Hrows row Hrow).
    rewrite flat_map_app. simpl. rewrite app_nil_r.
    rewrite lookup_set_same by assumption. f_equal.
    unfold identifiers. apply flat_map_singleton. intros k Hk.
    rewrite lookup_set_other; [| intros -> ; contradiction | assumption].
    apply lookup_all_present; try assumption.
    rewrite Forall_forall in Hin. now apply Hin.
Qed.

(** One row of the selection: the identifiers under their labels, then the
    list of processed substrings under [temp]. *)
Lemma combine_items (ref_col : list string) (ids : list cell) (v : cell) :
  List.length ids = List.length ref_col ->
  combine (ref_col ++ ["temp"]) (ids ++ [v])
  = combine ref_col ids ++ [("temp", v)].
Proof.
  revert ids. induction ref_col as [|k ref_col IH]; intros [|x ids] Hlen;
    simpl in *; try discriminate; try reflexivity.
  f_equal. apply IH. lia.
Qed.

Lemma iter_item_temp (ref_col : list string) (ids : list cell)
    (l : list string) :
  ~ In "temp" ref_col -> List.length ids = List.length ref_col ->
  iter_item (combine (ref_col ++ ["temp"]) (ids ++ [Lst l])) "temp"
  = Ok (map Text l).
Proof.
  intros Htemp Hlen. unfold iter_item.
  rewrite combine_items, lookup_all_app, lookup_all_absent by assumption.
  reflexivity.
Qed.

Lemma labels_of_combine {A B : Type} (xs : list A) (ys : list B) :
  List.length ys = List.length xs -> map fst (combine xs ys) = xs.
Proof.
  revert ys. induction xs as [|x xs IH]; intros [|y ys] Hlen;
    simpl in *; try discriminate; try reflexivity.
  f_equal. apply IH. lia.
Qed.

Lemma series_select_ids (ref_col : list string) (ids : list cell) (v : cell) :
  NoDup ref_col -> ~ In "temp" ref_col ->
  List.length ids = List.length ref_col ->
  series_select (combine (ref_col ++ ["temp"]) (ids ++ [v])) ref_col = Ok ids.
Proof.
  intros Hnd Htemp Hlen. unfold series_select.
  rewrite combine_items by assumption.
  replace (forallb _ ref_col) with true.
  2:{ symmetry. apply forallb_forall. intros k Hk. apply has_label_In.
      rewrite map_app, in_app_iff, labels_of_combine by assumption.
      now left. }
  f_equal.
  transitivity (map (cell_at ref_col ids) ref_col);
    [| now apply map_cell_at_self].
  apply flat_map_singleton. intros k Hk.
  rewrite lookup_all_app, (lookup_all_present k ref_col ids Hnd Hk Hlen).
  unfold lookup_all at 1. cbn [filter fst].
  destruct (String.eqb_spec "temp" k) as [<-|_]; [contradiction|].
  reflexivity.
Qed.

Lemma append_values_ok (i : Z) (items : Series) (ref_col : list string)
    (ids ms : list cell) (value_per_row : list (list cell)) :
  series_select items ref_col = Ok ids ->
  append_values i items ref_col ms value_per_row
  = Ok (value_per_row ++ map (fun m => Num i :: ids ++ [m]) ms).
Proof.
  intros Hids. revert value_per_row.
  induction ms as [|m ms IH]; intros acc; simpl.
  - now rewrite app_nil_r.
  - rewrite Hids. simpl. rewrite IH, <- app_assoc. reflexivity.
Qed.

Lemma each_row_ok (ref_col : list string) (ids : list cell -> list cell)
    (g : list cell -> list string) (rows : list (Z * list cell))
    (value_per_row : list (list cell)) :
  NoDup ref_col -> ~ In "temp" ref_col ->
  (forall row, List.length (ids row) = List.length ref_col) ->
  each_row ref_col
    (map (fun ir => (fst ir,
                     combine (ref_col ++ ["temp"])
                             (ids (snd ir) ++ [Lst (g (snd ir))])))
         rows)
    value_per_row
  = Ok (value_per_row
        ++ flat_map (fun ir => map (fun a => Num (fst ir) :: ids (snd ir) ++ [Text a])
                                   (g (snd ir)))
                    rows).
Proof.
  intros Hnd Htemp Hlen. revert value_per_row.
  induction rows as [|[i row] rows IH]; intros acc; simpl.
  - now rewrite app_nil_r.
  - rewrite iter_item_temp by auto. simpl.
    rewrite (append_values_ok i _ ref_col (ids row)) by now apply series_select_ids.
    simpl. rewrite IH, <- app_assoc, map_map. reflexivity.
Qed.

Lemma of_rows_ok (rows : list (list cell)) (cols : list string) :
  Forall (fun r => List.length r = List.length cols) rows ->
  of_rows rows cols
  = Ok {| columns := cols;
          index := map Z.of_nat (seq 0 (List.length rows));
          data := rows |}.
Proof.
  intros Hall. unfold of_rows.
  replace (forallb _ rows) with true; [reflexivity|].
  symmetry. apply forallb_forall. intros r Hr. apply Nat.eqb_eq.
  rewrite Forall_forall in Hall. now apply Hall.
Qed.

Lemma length_rows_of (df : DataFrame) (col : string) (ref_col : list string)
    (f : string -> list string) (lower : bool) :
  Forall (fun r => List.length r = List.length ("paper nb" :: ref_col ++ [col]))
         (expanded df col ref_col f lower).
Proof.
  apply Forall_forall. intros r Hr. unfold expanded in Hr.
  apply in_flat_map in Hr. destruct Hr as [[i row] [_ Hr]].
  unfold rows_of in Hr. apply in_map_iff in Hr. destruct Hr as [a [<- _]].
  simpl. unfold identifiers. rewrite !length_app, length_map. reflexivity.
Qed.

(** On a well-formed table with a text target column and a separator that
    gives the split [f], the call returns the table of the four steps of
    the algorithm, and leaves the caller's frame with the scratch column
    [temp]. *)
Theorem expand_ok (re : regex_engine) (df : DataFrame) (col : string)
    (ref_col : ref_arg) (sep : string) (lower : bool)
    (f : string -> list string) :
  expandable df col ref_col ->
  splitter re sep = Ok f ->
  split_column_with_multiple_entries re df col ref_col sep lower
  = (setitem df "temp"
       (map (fun row => Lst (lstrip (pieces f (cell_at (columns df) row col)) lower))
            (data df)),
     Ok {| columns := "paper nb" :: as_list ref_col ++ [col];
           index := map Z.of_nat
                        (seq 0 (List.length (expanded df col (as_list ref_col) f lower)));
           data := expanded df col (as_list ref_col) f lower |}).
Proof.
  intros (Hwf & Htext & Hids) Hf.
  unfold split_column_with_multiple_entries.
  rewrite (split_step_text re df col sep lower f) by (assumption || apply Hwf).
  rewrite map_map. f_equal.
  rewrite (select_after_setitem df (as_list ref_col)
             (fun row => Lst (lstrip (pieces f (cell_at (columns df) row col)) lower))
             Hwf Hids).
  cbn [bind]. unfold iterrows. cbn [columns index data].
  rewrite map_map, combine_map_r.
  destruct Hids as (Hnd & Htemp & Hin).
  rewrite (each_row_ok (as_list ref_col) (identifiers df (as_list ref_col))
             (fun row => lstrip (pieces f (cell_at (columns df) row col)) lower)
             _ [] Hnd Htemp)
    by (intros row; unfold identifiers; apply length_map).
  cbn [bind app].
  replace (flat_map _ (combine (index df) (data df)))
    with (expanded df col (as_list ref_col) f lower).
  - apply of_rows_ok, length_rows_of.
  - unfold expanded. apply flat_map_ext. intros [i row].
    unfold rows_of. cbn [fst snd]. rewrite lstrip_processed, map_map.
    reflexivity.
Qed.

Lemma select_present (df : DataFrame) (labels : list string) :
  well_formed df -> Forall (fun k => In k (columns df)) labels ->
  select df labels
  = Ok {| columns := labels;
          index := index df;
          data := map (fun row => map (cell_at (columns df) row) labels)
                      (data df) |}.
Proof.
  intros (Hnd & _ & Hrows) Hin. unfold select.
  rewrite Forall_forall in Hin, Hrows.
  replace (forallb _ labels) with true.
  2:{ symmetry. apply forallb_forall. intros k Hk.
      apply has_label_In. now apply Hin. }
  f_equal. f_equal.
  - rewrite (flat_map_singleton _ (fun k => k)); [apply map_id|].
    intros k Hk. apply filter_eqb_unique; auto.
  - apply map_ext_in. intros row Hrow. apply flat_map_singleton.
    intros k Hk. apply lookup_all_present; auto.
Qed.

Lemma cell_at_set_same (cols : list string) (k : string) (v : cell)
    (row : list cell) :
  NoDup cols -> List.length row = List.length cols ->
  cell_at (labels_after k cols) (set_cell cols k v row) k = v.
Proof.
  intros Hnd Hlen. unfold cell_at. now rewrite lookup_set_same.
Qed.

End Expander.


(** ** Properties of the expander *)

Section Claims.

Import Pandas.

Lemma snd_expand_ok (re : regex_engine) (df : DataFrame) (col : string)
    (ref_col : ref_arg) (sep : string) (lower : bool)
    (f : string -> list string) :
  expandable df col ref_col ->
  splitter re sep = Ok f ->
  exists out,
    snd (split_column_with_multiple_entries re df col ref_col sep lower)
    = Ok out
    /\ columns out = "paper nb" :: as_list ref_col ++ [col]
    /\ data out = expanded df col (as_list ref_col) f lower.
Proof.
  intros H Hf. rewrite (expand_ok re df col ref_col sep lower f H Hf).
  eexists. repeat split.
Qed.


(** *** What a returned table says of the call *)

Lemma apply_Ok (g : list string -> list string) (f : string -> list string)
    (cells : list cell) (temp : list (list string)) :
  apply g (map (str_split f) cells) = Ok temp ->
  Forall (fun x => exists s, x = Text s) cells
  /\ temp = map (fun x => g (pieces f x)) cells.
Proof.
  revert temp. induction cells as [|x cells IH]; intros temp H.
  - injection H as <-. split; [constructor | reflexivity].
  - destruct x as [s| | |]; try discriminate H.
    cbn [map str_split apply] in H. apply bind_Ok in H.
    destruct H as (ys & Hys & [= <-]). destruct (IH ys Hys) as [Hall ->].
    split; [|reflexivity]. constructor; [now exists s | assumption].
Qed.

Lemma getitem_Ok (df : DataFrame) (col : string) (column : list cell) :
  getitem df col = Ok column ->
  In col (columns df)
  /\ column = map (fun row => cell_at (columns df) row col) (data df).
Proof.
  unfold getitem.
  destruct (count_occ string_dec (columns df) col) as [|[|n]] eqn:Hn;
    try discriminate.
  intros [= <-]. split; [|reflexivity].
  apply (count_occ_In string_dec). lia.
Qed.

Lemma str_accessor_Ok (column column' : list cell) :
  str_accessor column = Ok column' -> column' = column.
Proof.
  unfold str_accessor. destruct column as [|x column]; [now intros [= <-]|].
  destruct (existsb holds_text (x :: column)); [now intros [= <-]|].
  discriminate.
Qed.

Lemma split_step_Ok (re : regex_engine) (df : DataFrame) (col sep : string)
    (lower : bool) (temp : list (list string)) :
  split_step re df col sep lower = Ok temp ->
  exists f,
    splitter re sep = Ok f
    /\ text_column df col
    /\ temp = map (fun row =>
                     lstrip (pieces f (cell_at (columns df) row col)) lower)
                  (data df).
Proof.
  unfold split_step. intros H.
  apply bind_Ok in H. destruct H as (column & Hget & H).
  apply bind_Ok in H. destruct H as (column' & Hstr & H).
  apply bind_Ok in H. destruct H as (f & Hf & H).
  apply str_accessor_Ok in Hstr. subst column'.
  apply getitem_Ok in Hget. destruct Hget as [Hin ->].
  apply apply_Ok in H. destruct H as [Hall ->].
  exists f. split; [assumption|]. split.
  - split; [assumption|]. rewrite Forall_map in Hall. exact Hall.
  - now rewrite map_map.
Qed.















(** *** The examples of the specification *)

(** Example 1: one row, three numbers of subjects. *)
Lemma expand_subjects :
  snd (split_column_with_multiple_entries no_regex
         {| columns := ["Citation"; "Subjects"];
            index := [0%Z];
            data := [[Text "A1"; Text "15, 203, 23"]] |}
         "Subjects" (RefStr "Citation") ", " true)
  = Ok {| columns := ["paper nb"; "Citation"; "Subjects"];
          index := [0%Z; 1%Z; 2%Z];
          data := [[Num 0; Text "A1"; Text "15"];
                   [Num 0; Text "A1"; Text "203"];
                   [Num 0; Text "A1"; Text "23"]] |}.
Proof. reflexivity. Qed.

(** Example 2: the default separator. *)
Lemma split_default_sep :
  exists f,
    splitter no_regex default_sep = Ok f
    /\ lstrip (f ("x" ++ default_sep ++ "y" ++ default_sep ++ "z")%string) true
       = ["x"; "y"; "z"].
Proof. eexists. split; reflexivity. Qed.

(** Example 3: the row-index values of two rows with two values and one. *)
Lemma expand_two_rows :
  exists out,
    snd (split_column_with_multiple_entries no_regex
           {| columns := ["Citation"; "Subjects"];
              index := [0%Z; 1%Z];
              data := [[Text "A1"; Text "15, 203"]; [Text "B2"; Text "7"]] |}
           "Subjects" (RefStr "Citation") ", " true) = Ok out
    /\ paper_nb out = [0; 0; 1]%Z.
Proof. eexists. split; reflexivity. Qed.

(** Example 4: an empty target cell gives one row with the empty text. *)
Lemma expand_empty_cell :
  snd (split_column_with_multiple_entries no_regex
         {| columns := ["Citation"; "Subjects"];
            index := [0%Z];
            data := [[Text "A1"; Text EmptyString]] |}
         "Subjects" (RefStr "Citation") default_sep true)
  = Ok {| columns := ["paper nb"; "Citation"; "Subjects"];
          index := [0%Z];
          data := [[Num 0; Text "A1"; Text EmptyString]] |}.
Proof. reflexivity. Qed.

(** *** Order *)

Lemma split_from_nonempty (sep : string) (skip : nat) (s : string) :
  Str.split_from sep skip s <> [].
Proof.
  revert skip. induction s as [|c s IH]; intros skip; cbn [Str.split_from];
    [discriminate|].
  destruct skip as [|k]; [|apply IH].
  destruct (prefix sep (String c s)); [discriminate|].
  destruct (Str.split_from sep 0 s); discriminate.
Qed.










(** *** Identifiers and values *)

Lemma nth_error_combine {A B : Type} (xs : list A) (ys : list B) (p : nat)
    (x : A) (y : B) :
  nth_error (combine xs ys) p = Some (x, y)
  <-> nth_error xs p = Some x /\ nth_error ys p = Some y.
Proof.
  revert ys p. induction xs as [|x0 xs IH]; intros [|y0 ys] [|p]; simpl;
    try (split; [discriminate | intros [? ?]; discriminate]).
  - split; [intros [= -> ->]; now split | intros [[= ->] [= ->]]; reflexivity].
  - apply IH.
Qed.










(** *** Empty substrings *)

Lemma flat_map_nth_error {A B : Type} (f : A -> list B) (l : list A)
    (p : nat) (x : A) :
  nth_error l p = Some x ->
  exists before after, flat_map f l = before ++ f x ++ after.
Proof.
  intros Hp. apply nth_error_split in Hp.
  destruct Hp as (l1 & l2 & -> & _).
  exists (flat_map f l1), (flat_map f l2).
  now rewrite flat_map_app.
Qed.



(** *** What the call does to the caller's table *)

Lemma setitem_frame (df : DataFrame) (k : string) (vs : list cell) :
  well_formed df -> List.length vs = List.length (data df) ->
  index (setitem df k vs) = index df
  /\ List.length (data (setitem df k vs)) = List.length (data df)
  /\ forall k', k' <> k ->
       (In k' (columns (setitem df k vs)) <-> In k' (columns df))
       /\ map (fun row => lookup_all k' (combine (columns (setitem df k vs)) row))
              (data (setitem df k vs))
          = map (fun row => lookup_all k' (combine (columns df) row)) (data df).
Proof.
  intros (_ & _ & Hrows) Hlen. unfold setitem. cbn [columns index data].
  split; [reflexivity|]. split.
  - rewrite length_map, length_combine. lia.
  - intros k' Hne. split.
    + rewrite In_labels_after. intuition congruence.
    + rewrite map_map.
      transitivity
        (map (fun row => lookup_all k' (combine (columns df) row))
             (map fst (combine (data df) vs)));
        [| now rewrite labels_of_combine].
      rewrite map_map. apply map_ext_in. intros [row v] Hin.
      cbn [fst snd]. apply lookup_set_other; [assumption|].
      apply in_combine_l in Hin. rewrite Forall_forall in Hrows.
      now apply Hrows.
Qed.

Lemma split_step_length (re : regex_engine) (df : DataFrame)
    (col sep : string) (lower : bool) (temp : list (list string)) :
  split_step re df col sep lower = Ok temp ->
  List.length temp = List.length (data df).
Proof.
  intros H. apply split_step_Ok in H. destruct H as (f & _ & _ & ->).
  apply length_map.
Qed.





(** *** Missing columns *)

Lemma select_absent (df : DataFrame) (labels : list string) (k : string) :
  In k labels -> ~ In k (columns df) -> select df labels = Raise KeyError.
Proof.
  intros Hk Habsent. unfold select.
  destruct (forallb _ labels) eqn:Hall; [|reflexivity].
  exfalso. apply Habsent. apply has_label_In.
  rewrite forallb_forall in Hall. now apply Hall.
Qed.



(** The identifier [temp] is never missing: the split step makes the
    column.  The row then holds [temp] twice, the rows built are too wide
    for the three labels, and the table constructor refuses them. *)
Lemma expand_scratch_identifier :
  ~ In "temp" (columns papers)
  /\ snd (split_column_with_multiple_entries no_regex papers "Subjects"
            (RefStr "temp") ", " true)
     = Raise ValueError.
Proof.
  split; [simpl; intuition discriminate | reflexivity].
Qed.


(** *** Running twice *)

Lemma count_occ_labels_after (k k' : string) (cols : list string) :
  k' <> k ->
  count_occ string_dec (labels_after k cols) k'
  = count_occ string_dec cols k'.
Proof.
  intros Hne. unfold labels_after. destruct (has_label k cols);
    [reflexivity|].
  rewrite count_occ_app. simpl.
  destruct (string_dec k k'); [congruence | lia].
Qed.

Lemma getitem_after_setitem (df : DataFrame) (k col : string)
    (vs : list cell) :
  well_formed df -> List.length vs = List.length (data df) -> col <> k ->
  getitem (setitem df k vs) col = getitem df col.
Proof.
  intros Hwf Hlen Hne.
  destruct (setitem_frame df k vs Hwf Hlen) as (_ & _ & Hframe).
  destruct (Hframe col Hne) as [_ Hcells].
  unfold getitem. cbn [setitem columns].
  rewrite count_occ_labels_after by assumption.
  destruct (count_occ string_dec (columns df) col) as [|[|n]];
    try reflexivity.
  f_equal. unfold cell_at.
  apply (f_equal (map (hd NaN))) in Hcells.
  rewrite !map_map in Hcells. exact Hcells.
Qed.

Lemma set_cell_again (cols : list string) (k : string) (v : cell)
    (row : list cell) :
  List.length row = List.length cols ->
  set_cell (labels_after k cols) k v (set_cell cols k v row)
  = set_cell cols k v row.
Proof.
  intros Hlen. unfold set_cell at 1.
  replace (has_label k (labels_after k cols)) with true.
  2:{ symmetry. apply has_label_In, In_labels_after. now right. }
  rewrite combine_set_cell by assumption. unfold set_cell.
  destruct (has_label k cols) eqn:Hk.
  - rewrite map_map. apply map_ext. intros [c x]. cbn [fst snd].
    now destruct (String.eqb c k).
  - apply has_label_false in Hk. rewrite map_app. cbn [map fst].
    rewrite String.eqb_refl. f_equal.
    revert row Hlen. induction cols as [|c cols IH]; intros [|x row] Hlen;
      simpl in *; try discriminate; try reflexivity.
    destruct (String.eqb_spec c k) as [->|_]; [tauto|].
    f_equal. apply IH; [tauto | lia].
Qed.

Lemma setitem_again (df : DataFrame) (k : string) (vs : list cell) :
  well_formed df -> setitem (setitem df k vs) k vs = setitem df k vs.
Proof.
  intros (_ & _ & Hrows). unfold setitem. cbn [columns index data].
  f_equal.
  - unfold labels_after at 1.
    replace (has_label k (labels_after k (columns df))) with true;
      [reflexivity|].
    symmetry. apply has_label_In, In_labels_after. now right.
  - revert vs. induction Hrows as [|row rows Hrow Hrows IH]; intros [|v vs];
      simpl; try reflexivity.
    f_equal; [now apply set_cell_again | apply IH].
Qed.

Lemma split_step_after_setitem (re : regex_engine) (df : DataFrame)
    (k col sep : string) (lower : bool) (vs : list cell) :
  well_formed df -> List.length vs = List.length (data df) -> col <> k ->
  split_step re (setitem df k vs) col sep lower
  = split_step re df col sep lower.
Proof.
  intros Hwf Hlen Hne. unfold split_step.
  now rewrite getitem_after_setitem.
Qed.

(** C8.  The result is a function of the five arguments: equal arguments
    give equal tables, row for row.  Nor does the column that a run leaves
    in the caller's table reach the next run: called again on the table as
    the first call left it, with a target other than [temp], the expander
    returns what it returned and leaves the table as it found it. *)
Theorem expand_deterministic (re : regex_engine) (df : DataFrame)
    (col : string) (ref_col : ref_arg) (sep : string) (lower : bool) :
  (forall df2 col2 ref_col2 sep2 lower2,
     df2 = df -> col2 = col -> ref_col2 = ref_col -> sep2 = sep ->
     lower2 = lower ->
     snd (split_column_with_multiple_entries re df2 col2 ref_col2 sep2 lower2)
     = snd (split_column_with_multiple_entries re df col ref_col sep lower))
  /\ (well_formed df -> col <> "temp" ->
      let first :=
        split_column_with_multiple_entries re df col ref_col sep lower in
      split_column_with_multiple_entries re (fst first) col ref_col sep lower
      = first).
Proof.
  split; [intros; subst; reflexivity|].
  intros Hwf Hcol. cbv zeta.
  unfold split_column_with_multiple_entries at 2.
  destruct (split_step re df col sep lower) as [temp|e] eqn:Hstep;
    cbn [fst].
  - pose proof (split_step_length _ _ _ _ _ _ Hstep) as Hlen.
    unfold split_column_with_multiple_entries.
    rewrite split_step_after_setitem, Hstep
      by (assumption || now rewrite length_map).
    now rewrite setitem_again.
  - unfold split_column_with_multiple_entries. now rewrite Hstep.
Qed.

Lemma expand_deterministic_witness :
  (papers = papers /\ well_formed papers /\ "Subjects" <> "temp")
  /\ snd (split_column_with_multiple_entries no_regex papers "Subjects"
            (RefStr "Citation") ", " true)
     = snd (split_column_with_multiple_entries no_regex papers "Subjects"
              (RefStr "Citation") ", " true)
  /\ (let first :=
        split_column_with_multiple_entries no_regex papers "Subjects"
          (RefStr "Citation") ", " true in
      split_column_with_multiple_entries no_regex (fst first) "Subjects"
        (RefStr "Citation") ", " true
      = first).
Proof.
  split; [unfold well_formed; table_facts|]. split.
  - apply (proj1 (expand_deterministic no_regex papers "Subjects"
                    (RefStr "Citation") ", " true));
      reflexivity.
  - apply (proj2 (expand_deterministic no_regex papers "Subjects"
                    (RefStr "Citation") ", " true));
      unfold well_formed; table_facts.
Defined.

(** C9.  One label for [ref_col] is the list of that one label. *)
Theorem expand_single_identifier (re : regex_engine) (df : DataFrame)
    (col k sep : string) (lower : bool) :
  split_column_with_multiple_entries re df col (RefStr k) sep lower
  = split_column_with_multiple_entries re df col (RefList [k]) sep lower.
Proof. reflexivity. Qed.

(** *** Main domains *)

Lemma main_domain_first (cells : list cell) :
  main_domain cells = first_main_domain cells.
Proof.
  unfold main_domain. induction cells as [|x cells IH]; [reflexivity|].
  cbn [existsb filter first_main_domain].
  destruct (isin main_domains x); [reflexivity | exact IH].
Qed.

Lemma first_main_domain_spec (cells : list cell) :
  (exists before d after,
     cells = before ++ d :: after
     /\ Forall (fun x => isin main_domains x = false) before
     /\ isin main_domains d = true
     /\ first_main_domain cells = d)
  \/ (Forall (fun x => isin main_domains x = false) cells
      /\ first_main_domain cells = Text "Others").
Proof.
  induction cells as [|x cells IH]; [right; now split|].
  cbn [first_main_domain]. destruct (isin main_domains x) eqn:Hx.
  - left. exists [], x, cells. now repeat split.
  - destruct IH as [(before & d & after & -> & Hb & Hd & Hm) | [Hall Hm]].
    + left. exists (x :: before), d, after. repeat split; trivial.
      now constructor.
    + right. split; [now constructor | assumption].
Qed.

Lemma isin_main (x : cell) :
  (isin main_domains x = true
   <-> exists s, x = Text s /\ In s main_domains)
  /\ (isin main_domains x = false
      <-> forall s, x = Text s -> ~ In s main_domains).
Proof.
  assert (Htrue : isin main_domains x = true
                  <-> exists s, x = Text s /\ In s main_domains).
  { split.
    - destruct x as [s| | |]; try discriminate. cbn [isin]. intros H.
      apply existsb_exists in H. destruct H as (d & Hd & Heq).
      apply String.eqb_eq in Heq. subst d. now exists s.
    - intros (s & -> & Hs). cbn [isin]. apply existsb_exists.
      exists s. split; [assumption | apply String.eqb_refl]. }
  split; [exact Htrue|].
  destruct (isin main_domains x) eqn:Hx.
  - split; [discriminate|]. intros Hnone.
    destruct (proj1 Htrue eq_refl) as (s & Hs & Hin).
    now destruct (Hnone s Hs).
  - split; [|reflexivity]. intros _ s Hs Hin.
    assert (false = true) by (apply Htrue; now exists s). discriminate.
Qed.

Lemma first_main_domain_first (cells : list cell) :
  (exists before s after,
     cells = before ++ Text s :: after
     /\ In s main_domains
     /\ Forall (fun x => forall s', x = Text s' -> ~ In s' main_domains) before
     /\ first_main_domain cells = Text s)
  \/ (Forall (fun x => forall s', x = Text s' -> ~ In s' main_domains) cells
      /\ first_main_domain cells = Text "Others").
Proof.
  destruct (first_main_domain_spec cells)
    as [(before & d & after & Hcells & Hbefore & Hd & Hmain) | [Hall Hmain]].
  - left. apply isin_main in Hd. destruct Hd as (s & -> & Hs).
    exists before, s, after. repeat split; trivial.
    eapply Forall_impl; [|exact Hbefore]. intros x Hx. now apply isin_main.
  - right. split; [|assumption].
    eapply Forall_impl; [|exact Hall]. intros x Hx. now apply isin_main.
Qed.

(** C10.  Each row gets for main domain the first of its cells under
    [Domain 1], [Domain 2], [Domain 3], [Domain 4], in that order, that is
    the text of one of the seven main domains, and [Others] when none of
    the four is. *)
Theorem extract_main_domains_first (df : DataFrame) :
  well_formed df ->
  Forall (fun k => In k (columns df))
         ["Domain 1"; "Domain 2"; "Domain 3"; "Domain 4"] ->
  exists df',
    extract_main_domains df = Ok df'
    /\ index df' = index df
    /\ forall p row,
         nth_error (data df) p = Some row ->
         exists row',
           nth_error (data df') p = Some row'
           /\ let seven :=
                ["Epilepsy"; "Sleep"; "BCI"; "Affective"; "Cognitive";
                 "Improvement of processing tools"; "Generation of data"] in
              let domains :=
                map (cell_at (columns df) row)
                    ["Domain 1"; "Domain 2"; "Domain 3"; "Domain 4"] in
              let main := cell_at (columns df') row' "Main domain" in
              (exists before s after,
                 domains = before ++ Text s :: after
                 /\ In s seven
                 /\ Forall (fun x =>
                              forall s', x = Text s' ->
                                         ~ In s' seven)
                           before
                 /\ main = Text s)
              \/ (Forall (fun x =>
                            forall s', x = Text s' -> ~ In s' seven)
                         domains
                  /\ main = Text "Others").
Proof.
  intros Hwf Hin. unfold extract_main_domains.
  rewrite (select_present df _ Hwf Hin). cbn [bind data].
  rewrite map_map.
  rewrite (setitem_map df "Main domain"
             (fun row =>
                main_domain
                  (map (cell_at (columns df) row)
                       ["Domain 1"; "Domain 2"; "Domain 3"; "Domain 4"]))).
  eexists. split; [reflexivity|]. cbn [index columns data].
  split; [reflexivity|]. intros p row Hrow.
  eexists. split; [apply map_nth_error; exact Hrow|]. cbv zeta.
  destruct Hwf as (Hnd & _ & Hrows). rewrite Forall_forall in Hrows.
  rewrite !cell_at_set_same
    by (assumption || (apply Hrows; eapply nth_error_In; exact Hrow)).
  rewrite main_domain_first. apply first_main_domain_first.
Qed.

Lemma extract_main_domains_first_witness :
  (well_formed papers_by_domain
   /\ Forall (fun k => In k (columns papers_by_domain))
             ["Domain 1"; "Domain 2"; "Domain 3"; "Domain 4"])
  /\ extract_main_domains papers_by_domain
     = Ok {| columns := ["Citation"; "Domain 1"; "Domain 2"; "Domain 3";
                         "Domain 4"; "Main domain"];
             index := [0%Z; 1%Z];
             data := [[Text "A1"; Text "EEG"; Text "Sleep"; NaN; Text "BCI";
                       Text "Sleep"];
                      [Text "B2"; Text "Monitoring"; NaN; NaN; NaN;
                       Text "Others"]] |}
  /\ exists df',
       extract_main_domains papers_by_domain = Ok df'
       /\ index df' = index papers_by_domain
       /\ forall p row,
            nth_error (data papers_by_domain) p = Some row ->
            exists row',
              nth_error (data df') p = Some row'
              /\ let seven :=
                ["Epilepsy"; "Sleep"; "BCI"; "Affective"; "Cognitive";
                 "Improvement of processing tools"; "Generation of data"] in
              let domains :=
                   map (cell_at (columns papers_by_domain) row)
                       ["Domain 1"; "Domain 2"; "Domain 3"; "Domain 4"] in
                 let main := cell_at (columns df') row' "Main domain" in
                 (exists before s after,
                    domains = before ++ Text s :: after
                    /\ In s seven
                    /\ Forall (fun x =>
                                 forall s', x = Text s' ->
                                            ~ In s' seven)
                              before
                    /\ main = Text s)
                 \/ (Forall (fun x =>
                               forall s', x = Text s' -> ~ In s' seven)
                            domains
                     /\ main = Text "Others").
Proof.
  split; [table_expandable|]. split; [reflexivity|].
  apply (extract_main_domains_first papers_by_domain); table_expandable.
Defined.

End Claims.


(** ** Escaping for LaTeX *)

Section TexEscape.

Ltac each_char c :=
  destruct c as [[] [] [] [] [] [] [] []].

Lemma tex_escape_cons (c : ascii) (text : string) :
  tex_escape (String c text) = (escape_char c ++ tex_escape text)%string.
Proof.
  unfold escape_char. cbn [tex_escape].
  destruct (conv_get conv c); reflexivity.
Qed.

(** X1.  Escaping goes through concatenation. *)
Theorem tex_escape_append (a b : string) :
  tex_escape (a ++ b) = (tex_escape a ++ tex_escape b)%string.
Proof.
  induction a as [|c a IH]; [reflexivity|].
  change (String c a ++ b)%string with (String c (a ++ b)).
  rewrite !tex_escape_cons, IH. symmetry. apply append_assoc.
Qed.

Lemma escape_char_length (c : ascii) :
  if is_key c then 2 <= String.length (escape_char c)
  else escape_char c = String c EmptyString.
Proof.
  each_char c; cbv; try reflexivity; lia.
Qed.

Lemma tex_escape_length (text : string) :
  String.length text <= String.length (tex_escape text)
  /\ (String.length (tex_escape text) = String.length text ->
      Str.all (fun c => negb (is_key c)) text = true).
Proof.
  induction text as [|c text [IHle IHeq]]; [split; reflexivity|].
  rewrite tex_escape_cons, length_append. cbn [String.length Str.all].
  pose proof (escape_char_length c) as Hc.
  destruct (is_key c).
  - split; [lia|]. intros H. lia.
  - rewrite Hc. cbn [String.length negb andb]. split; [lia|].
    intros H. apply IHeq. lia.
Qed.

Lemma tex_escape_plain (text : string) :
  Str.all (fun c => negb (is_key c)) text = true -> tex_escape text = text.
Proof.
  induction text as [|c text IH]; [reflexivity|].
  cbn [Str.all]. intros H. apply andb_true_iff in H. destruct H as [Hc H].
  rewrite tex_escape_cons. pose proof (escape_char_length c) as Hlen.
  apply negb_true_iff in Hc. rewrite Hc in Hlen. rewrite Hlen, IH by assumption.
  reflexivity.
Qed.

(** X2.  The texts that escaping leaves as they are are those without a
    character of the dictionary; any other text gets longer. *)
Theorem tex_escape_fixed (text : string) :
  (tex_escape text = text
   <-> Str.all (fun c => negb (is_key c)) text = true)
  /\ String.length text <= String.length (tex_escape text).
Proof.
  destruct (tex_escape_length text) as [Hle Heq]. split; [|assumption].
  split; [|apply tex_escape_plain].
  intros H. apply Heq. now rewrite H.
Qed.

Lemma unguarded_escape_char (c prev : ascii) (rest : string) :
  (forall q, unguarded q rest = false) ->
  unguarded prev (escape_char c ++ rest) = false.
Proof.
  intros H. each_char c; cbn; rewrite ?H; try reflexivity;
    rewrite ?andb_false_r; reflexivity.
Qed.

(** X3.  In an escaped text every one of & % $ # _ stands right after a
    backslash, and the characters ~ < > do not occur. *)
Theorem tex_escape_guards (text : string) :
  unguarded " " (tex_escape text) = false
  /\ Str.all (fun c => negb (existsb (Ascii.eqb c) ["~"; "<"; ">"]%char))
             (tex_escape text) = true.
Proof.
  split.
  - generalize " "%char as prev.
    induction text as [|c text IH]; intros prev; [reflexivity|].
    rewrite tex_escape_cons. now apply unguarded_escape_char.
  - induction text as [|c text IH]; [reflexivity|].
    rewrite tex_escape_cons. revert IH. generalize (tex_escape text).
    intros rest IH. each_char c; cbn; exact IH.
Qed.

Lemma first_escaped_char (c : ascii) (rest : string) :
  first_escaped (escape_char c ++ rest) = c.
Proof.
  each_char c; reflexivity.
Qed.

Lemma append_cancel (a x y : string) :
  (a ++ x = a ++ y)%string -> x = y.
Proof.
  induction a as [|c a IH]; simpl; [trivial|].
  intros [= H]. now apply IH.
Qed.

(** X4.  Escaping loses nothing: two texts with the same escape are the
    same text. *)
Theorem tex_escape_injective (a b : string) :
  tex_escape a = tex_escape b -> a = b.
Proof.
  revert b. induction a as [|c a IH]; intros [|d b] H.
  - reflexivity.
  - exfalso. rewrite tex_escape_cons in H.
    apply (f_equal String.length) in H. rewrite length_append in H.
    pose proof (escape_char_length d) as Hd. destruct (is_key d).
    + simpl in H. lia.
    + rewrite Hd in H. simpl in H. lia.
  - exfalso. rewrite tex_escape_cons in H.
    apply (f_equal String.length) in H. rewrite length_append in H.
    pose proof (escape_char_length c) as Hc. destruct (is_key c).
    + simpl in H. lia.
    + rewrite Hc in H. simpl in H. lia.
  - rewrite !tex_escape_cons in H.
    assert (c = d) as <-.
    { rewrite <- (first_escaped_char c (tex_escape a)), H.
      apply first_escaped_char. }
    f_equal. apply IH. exact (append_cancel _ _ _ H).
Qed.

Lemma tex_escape_injective_witness :
  tex_escape "a_b" = tex_escape "a_b" /\ "a_b" = "a_b".
Proof.
  split; [reflexivity|].
  apply (tex_escape_injective "a_b" "a_b"). reflexivity.
Defined.

End TexEscape.


(** ** Wrapping a label *)

Section WrapText.

Lemma is_word_cons (c : ascii) (w : string) :
  is_word (String c w) = true
  <-> Str.isspace c = false
      /\ (w = EmptyString \/ is_word w = true).
Proof.
  unfold is_word. cbn [String.eqb Str.all negb andb].
  rewrite andb_true_iff, negb_true_iff. split.
  - intros [Hc Hw]. split; [assumption|].
    destruct w as [|d w]; [now left | right; exact Hw].
  - intros [Hc [-> | Hw]]; split; trivial.
    apply andb_true_iff in Hw. tauto.
Qed.

Lemma split_whitespace_word (w : string) :
  is_word w = true -> Py.split_whitespace w = [w].
Proof.
  induction w as [|c w IH]; [discriminate|].
  intros Hw. apply is_word_cons in Hw. destruct Hw as [Hc Hw].
  cbn [Py.split_whitespace]. rewrite Hc.
  destruct Hw as [-> | Hw]; [reflexivity|].
  destruct w as [|d w]; [discriminate|].
  pose proof (proj1 (is_word_cons d w) Hw) as [Hd _]. rewrite Hd.
  now rewrite IH.
Qed.

Lemma split_whitespace_word_space (w : string) (sp : ascii) (rest : string) :
  is_word w = true -> Str.isspace sp = true ->
  Py.split_whitespace (w ++ String sp rest)
  = w :: Py.split_whitespace rest.
Proof.
  intros Hw Hsp. induction w as [|c w IH]; [discriminate|].
  apply is_word_cons in Hw. destruct Hw as [Hc Hw].
  destruct Hw as [-> | Hw].
  - change (String c EmptyString ++ String sp rest)%string
      with (String c (String sp rest)).
    cbn [Py.split_whitespace]. now rewrite Hc, Hsp.
  - destruct w as [|d w]; [discriminate|].
    pose proof (proj1 (is_word_cons d w) Hw) as [Hd _].
    change (String c (String d w) ++ String sp rest)%string
      with (String c (String d (w ++ String sp rest))).
    change (String d w ++ String sp rest)%string
      with (String d (w ++ String sp rest)) in IH.
    cbn [Py.split_whitespace] in *. rewrite Hc, Hd in *.
    now rewrite (IH Hw).
Qed.

Lemma split_whitespace_words (s : string) :
  Forall (fun w => is_word w = true) (Py.split_whitespace s).
Proof.
  induction s as [|c s IH]; [constructor|].
  cbn [Py.split_whitespace]. destruct (Str.isspace c) eqn:Hc; [assumption|].
  destruct s as [|d s].
  - constructor; [|constructor]. apply is_word_cons. tauto.
  - destruct (Str.isspace d) eqn:Hd.
    + constructor; [|assumption]. apply is_word_cons. tauto.
    + destruct (Py.split_whitespace (String d s)) as [|w ws].
      * constructor; [|constructor]. apply is_word_cons. tauto.
      * inversion IH as [|? ? Hw Hws]; subst.
        constructor; [|assumption]. apply is_word_cons. tauto.
Qed.

Lemma wrap_loop_words (max_char : Z) (parts : list string) :
  Forall (fun w => is_word w = true) parts ->
  forall (out : string) (line_len : nat) (done : list string),
    Py.split_whitespace out = done ->
    (forall sp rest, Str.isspace sp = true ->
                     Py.split_whitespace (out ++ String sp rest)
                     = done ++ Py.split_whitespace rest) ->
    Py.split_whitespace (wrap_loop max_char parts out line_len)
    = done ++ parts.
Proof.
  induction 1 as [|i parts Hi _ IH]; intros out line_len done Hout Hnext.
  - cbn [wrap_loop]. now rewrite app_nil_r.
  - assert (Hstep : forall sp,
               Str.isspace sp = true ->
               forall n,
                 Py.split_whitespace
                   (wrap_loop max_char parts
                      (out ++ String sp EmptyString ++ i)%string n)
                 = done ++ i :: parts).
    { intros sp Hsp n.
      change (String sp EmptyString ++ i)%string with (String sp i).
      rewrite (IH _ n (done ++ [i])).
      - now rewrite <- app_assoc.
      - rewrite Hnext by assumption. now rewrite split_whitespace_word.
      - intros sp' rest Hsp'. rewrite append_assoc.
        change (String sp i ++ String sp' rest)%string
          with (String sp (i ++ String sp' rest)).
        rewrite Hnext by assumption.
        rewrite split_whitespace_word_space by assumption.
        now rewrite <- app_assoc. }
    cbn [wrap_loop].
    destruct (max_char <? _)%Z; apply Hstep; reflexivity.
Qed.

(** X5.  Wrapping changes the white space only: the words of the wrapped
    text are the words of the text, in order. *)
Theorem wrap_text_words (s : string) (max_char : Z) :
  Py.split_whitespace (wrap_text s max_char) = Py.split_whitespace s.
Proof.
  unfold wrap_text. destruct (_ && _)%bool; [|reflexivity].
  pose proof (split_whitespace_words s) as Hwords.
  destruct (Py.split_whitespace s) as [|first rest] eqn:Hparts;
    [exact Hparts|].
  inversion Hwords as [|? ? Hfirst Hrest]; subst.
  apply (wrap_loop_words max_char rest Hrest first _ [first]).
  - now apply split_whitespace_word.
  - intros sp tail Hsp. now apply split_whitespace_word_space.
Qed.

Lemma all_append (p : ascii -> bool) (a b : string) :
  Str.all p (a ++ b) = Str.all p a && Str.all p b.
Proof.
  induction a as [|c a IH]; [reflexivity|].
  simpl. now rewrite IH, andb_assoc.
Qed.

Lemma word_no_newline (w : string) :
  is_word w = true -> no_newline w = true.
Proof.
  unfold is_word, no_newline. intros H. apply andb_true_iff in H.
  destruct H as [_ H]. induction w as [|c w IH]; [reflexivity|].
  cbn [Str.all] in *. apply andb_true_iff in H. destruct H as [Hc H].
  rewrite (IH H), andb_true_r. apply negb_true_iff in Hc.
  apply negb_true_iff. destruct (Ascii.eqb_spec c newline) as [->|];
    [discriminate Hc | reflexivity].
Qed.

Lemma wrap_loop_lines (max_char : Z) (words : list string)
    (parts : list string) :
  Forall (fun w => is_word w = true /\ In w words) parts ->
  forall (pre line : string),
    no_newline line = true ->
    (Z.of_nat (String.length line) <= max_char)%Z \/ In line words ->
    exists lines,
      lines <> []
      /\ wrap_loop max_char parts (pre ++ line) (String.length line)
         = (pre ++ Str.join (String newline EmptyString) lines)%string
      /\ Forall (fun l =>
                   no_newline l = true
                   /\ ((Z.of_nat (String.length l) <= max_char)%Z
                       \/ In l words))
                lines.
Proof.
  induction 1 as [|i parts [Hi Hin] _ IH]; intros pre line Hnl Hline.
  - exists [line]. split; [discriminate|]. split; [reflexivity|].
    constructor; [tauto | constructor].
  - cbn [wrap_loop]. destruct (max_char <? _)%Z eqn:Hcmp.
    + destruct (IH (pre ++ line ++ String newline EmptyString)%string i
                   (word_no_newline i Hi) (or_intror Hin))
        as (lines & Hne & Hrun & Hall).
      exists (line :: lines). split; [discriminate|]. split.
      * rewrite <- !append_assoc in Hrun. rewrite <- !append_assoc.
        rewrite Hrun. destruct lines as [|l lines]; [congruence|].
        change (Str.join (String newline EmptyString) (line :: l :: lines))
          with (line ++ String newline EmptyString
                ++ Str.join (String newline EmptyString) (l :: lines))%string.
        now rewrite !append_assoc.
      * constructor; [tauto | assumption].
    + apply Z.ltb_ge in Hcmp.
      destruct (IH pre (line ++ " " ++ i)%string) as (lines & Hne & Hrun & Hall).
      * unfold no_newline in *. rewrite !all_append, Hnl.
        fold (no_newline i). now rewrite (word_no_newline i Hi).
      * left. rewrite !length_append. cbn [String.length]. lia.
      * exists lines. split; [assumption|]. split; [|assumption].
        rewrite <- Hrun. rewrite !length_append. cbn [String.length].
        rewrite <- !append_assoc. f_equal. lia.
Qed.

(** X6.  A text longer than [max_char] with two words or more comes out as
    lines joined by line feeds, each line within [max_char] characters or
    else a single word of the text. *)
Theorem wrap_text_lines (s : string) (max_char : Z) :
  (max_char < Z.of_nat (String.length s))%Z ->
  1 < List.length (Py.split_whitespace s) ->
  exists lines,
    wrap_text s max_char = Str.join (String newline EmptyString) lines
    /\ Forall (fun l =>
                 no_newline l = true
                 /\ ((Z.of_nat (String.length l) <= max_char)%Z
                     \/ In l (Py.split_whitespace s)))
              lines.
Proof.
  intros Hlong Hmany. unfold wrap_text.
  replace (max_char <? _)%Z with true by (symmetry; now apply Z.ltb_lt).
  replace (1 <? _)%nat with true by (symmetry; now apply Nat.ltb_lt).
  cbn [andb].
  pose proof (split_whitespace_words s) as Hwords.
  destruct (Py.split_whitespace s) as [|first rest] eqn:Hparts;
    [simpl in Hmany; lia|].
  inversion Hwords as [|? ? Hfirst Hrest]; subst.
  destruct (wrap_loop_lines max_char (first :: rest) rest) with
    (pre := EmptyString) (line := first) as (lines & _ & Hrun & Hall).
  - apply Forall_forall. intros w Hw. rewrite Forall_forall in Hrest.
    split; [now apply Hrest | now right].
  - now apply word_no_newline.
  - right. now left.
  - exists lines. split; [exact Hrun | exact Hall].
Qed.

Lemma wrap_text_lines_witness :
  ((10 < Z.of_nat (String.length "tools for EEG data"))%Z
   /\ 1 < List.length (Py.split_whitespace "tools for EEG data"))
  /\ exists lines,
       wrap_text "tools for EEG data" 10
       = Str.join (String newline EmptyString) lines
       /\ Forall (fun l =>
                    no_newline l = true
                    /\ ((Z.of_nat (String.length l) <= 10)%Z
                        \/ In l (Py.split_whitespace "tools for EEG data")))
                 lines.
Proof.
  split; [split; [reflexivity | simpl; lia]|].
  apply (wrap_text_lines "tools for EEG data" 10);
    [reflexivity | simpl; lia].
Defined.

End WrapText.


(** ** Missing values *)

Section ReplaceNans.

Import Pandas.

Lemma labels_after_present (k : string) (cols : list string) :
  In k cols -> labels_after k cols = cols.
Proof.
  intros Hin. unfold labels_after.
  now rewrite (proj2 (has_label_In k cols) Hin).
Qed.

Lemma cell_at_loc_set (cols : list string) (k k' : string) (mask : bool)
    (v : scalar) (row : list cell) :
  NoDup cols -> In k cols -> List.length row = List.length cols ->
  cell_at cols (loc_set cols k mask v row) k'
  = if (String.eqb k' k && mask)%bool then cell_of v
    else cell_at cols row k'.
Proof.
  intros Hnd Hin Hlen. unfold loc_set. destruct mask;
    [|now rewrite andb_false_r].
  rewrite andb_true_r.
  rewrite <- (labels_after_present k cols Hin) at 1.
  destruct (String.eqb_spec k' k) as [->|Hne].
  - now apply cell_at_set_same.
  - unfold cell_at. now rewrite lookup_set_other.
Qed.

Lemma length_loc_set (cols : list string) (k : string) (mask : bool)
    (v : scalar) (row : list cell) :
  In k cols -> List.length row = List.length cols ->
  List.length (loc_set cols k mask v row) = List.length cols.
Proof.
  intros Hin Hlen. unfold loc_set. destruct mask; [|assumption].
  rewrite length_set_cell by assumption.
  now rewrite labels_after_present.
Qed.

Lemma replace_nans_rows (df : DataFrame) (column_name : string)
    (replace_by : scalar) :
  NoDup (columns df) -> In column_name (columns df) ->
  replace_nans_in_column df column_name replace_by
  = Ok {| columns := columns df;
          index := index df;
          data := map (fun row =>
                         loc_set (columns df) column_name
                           (is_nan (cell_at (columns df) row column_name))
                           replace_by row)
                      (data df) |}.
Proof.
  intros Hnd Hin. unfold replace_nans_in_column.
  rewrite (proj1 (NoDup_count_occ' string_dec (columns df)) Hnd _ Hin).
  now rewrite combine_self_map, map_map.
Qed.

Lemma replace_nans_well_formed (df : DataFrame) (column_name : string)
    (replace_by : scalar) :
  well_formed df -> In column_name (columns df) ->
  well_formed
    {| columns := columns df;
       index := index df;
       data := map (fun row =>
                      loc_set (columns df) column_name
                        (is_nan (cell_at (columns df) row column_name))
                        replace_by row)
                   (data df) |}.
Proof.
  intros (Hnd & Hlen & Hrows) Hin. unfold well_formed.
  cbn [columns index data]. rewrite length_map. repeat split; trivial.
  apply Forall_map. eapply Forall_impl; [|exact Hrows].
  intros row Hrow. now apply length_loc_set.
Qed.

(** X7.  On a table without repeated labels, and for a replacement that is
    one value (a text, a number or the missing marker, not a list), the
    call raises [KeyError] exactly when the column is absent; otherwise it
    returns the table with the same labels, index and number of rows,
    every row as wide as before. *)
Theorem replace_nans_returns (df : DataFrame) (column_name : string)
    (replace_by : scalar) :
  well_formed df ->
  (~ In column_name (columns df) ->
   replace_nans_in_column df column_name replace_by = Raise KeyError)
  /\ (In column_name (columns df) ->
      exists df',
        replace_nans_in_column df column_name replace_by = Ok df'
        /\ columns df' = columns df
        /\ index df' = index df
        /\ List.length (data df') = List.length (data df)
        /\ well_formed df').
Proof.
  intros Hwf. split.
  - intros Habsent. unfold replace_nans_in_column.
    now rewrite (proj1 (count_occ_not_In string_dec _ _) Habsent).
  - intros Hin. rewrite replace_nans_rows by (assumption || apply Hwf).
    eexists. split; [reflexivity|]. cbn [columns index data].
    rewrite length_map. repeat split; trivial.
    + apply (replace_nans_well_formed df column_name replace_by Hwf Hin).
    + apply (replace_nans_well_formed df column_name replace_by Hwf Hin).
    + apply (replace_nans_well_formed df column_name replace_by Hwf Hin).
Qed.

Lemma replace_nans_returns_witness :
  well_formed papers_with_gap
  /\ (~ In "Channels" (columns papers_with_gap)
      /\ replace_nans_in_column papers_with_gap "Channels" (SText " ")
         = Raise KeyError)
  /\ (In "Subjects" (columns papers_with_gap)
      /\ exists df',
           replace_nans_in_column papers_with_gap "Subjects" (SText " ")
           = Ok df'
           /\ columns df' = columns papers_with_gap
           /\ index df' = index papers_with_gap
           /\ List.length (data df') = List.length (data papers_with_gap)
           /\ well_formed df').
Proof.
  split; [table_expandable|]. split.
  - split; [table_facts|].
    apply (proj1 (replace_nans_returns papers_with_gap "Channels" (SText " ")
                    ltac:(table_expandable))).
    table_facts.
  - split; [table_facts|].
    apply (proj2 (replace_nans_returns papers_with_gap "Subjects" (SText " ")
                    ltac:(table_expandable))).
    table_facts.
Defined.

(** X8.  For a replacement that is one value, the call puts [replace_by] in
    the cells of the column that hold the missing marker and changes no
    other cell of the table. *)
Theorem replace_nans_cells (df : DataFrame) (column_name : string)
    (replace_by : scalar) :
  well_formed df -> In column_name (columns df) ->
  exists df',
    replace_nans_in_column df column_name replace_by = Ok df'
    /\ forall p row,
         nth_error (data df) p = Some row ->
         exists row',
           nth_error (data df') p = Some row'
           /\ forall k,
                cell_at (columns df') row' k
                = if (String.eqb k column_name
                      && is_nan (cell_at (columns df) row column_name))%bool
                  then cell_of replace_by
                  else cell_at (columns df) row k.
Proof.
  intros (Hnd & Hlen & Hrows) Hin. rewrite replace_nans_rows by assumption.
  eexists. split; [reflexivity|]. cbn [columns data].
  intros p row Hrow. eexists. split; [apply map_nth_error; exact Hrow|].
  intros k. apply cell_at_loc_set; try assumption.
  rewrite Forall_forall in Hrows. apply Hrows.
  eapply nth_error_In. exact Hrow.
Qed.

Lemma replace_nans_cells_witness :
  (well_formed papers_with_gap /\ In "Subjects" (columns papers_with_gap))
  /\ exists df',
       replace_nans_in_column papers_with_gap "Subjects" (SText " ") = Ok df'
       /\ forall p row,
            nth_error (data papers_with_gap) p = Some row ->
            exists row',
              nth_error (data df') p = Some row'
              /\ forall k,
                   cell_at (columns df') row' k
                   = if (String.eqb k "Subjects"
                         && is_nan (cell_at (columns papers_with_gap) row
                                            "Subjects"))%bool
                     then Text " "
                     else cell_at (columns papers_with_gap) row k.
Proof.
  split; [table_expandable|].
  apply (replace_nans_cells papers_with_gap "Subjects" (SText " "));
    table_expandable.
Defined.

Lemma map_loc_set_clean (cols : list string) (k : string) (v : scalar)
    (rows : list (list cell)) :
  Forall (fun row => is_nan (cell_at cols row k) = false) rows ->
  map (fun row => loc_set cols k (is_nan (cell_at cols row k)) v row) rows
  = rows.
Proof.
  induction 1 as [|row rows Hrow _ IH]; [reflexivity|].
  cbn [map]. rewrite Hrow, IH. reflexivity.
Qed.

(** X9.  A second replacement finds nothing to replace: with a replacement
    that is one value and not itself the missing marker, the table
    returned by the call is returned unchanged by a second call. *)
Theorem replace_nans_again (df : DataFrame) (column_name : string)
    (replace_by : scalar) :
  well_formed df -> In column_name (columns df) ->
  is_nan (cell_of replace_by) = false ->
  exists df',
    replace_nans_in_column df column_name replace_by = Ok df'
    /\ Forall (fun row => is_nan (cell_at (columns df') row column_name) = false)
              (data df')
    /\ replace_nans_in_column df' column_name replace_by = Ok df'.
Proof.
  intros (Hnd & Hlen & Hrows) Hin Hby.
  rewrite replace_nans_rows by assumption. eexists.
  split; [reflexivity|].
  assert (Hclean :
            Forall (fun row => is_nan (cell_at (columns df) row column_name) = false)
                   (map (fun row =>
                           loc_set (columns df) column_name
                             (is_nan (cell_at (columns df) row column_name))
                             replace_by row)
                        (data df))).
  { apply Forall_map. eapply Forall_impl; [|exact Hrows].
    intros row Hrow. cbv beta in *.
    rewrite cell_at_loc_set by assumption. rewrite String.eqb_refl.
    cbn [andb]. now destruct (is_nan (cell_at (columns df) row column_name)) eqn:E. }
  split; [exact Hclean|].
  rewrite replace_nans_rows by assumption. cbn [columns index data].
  now rewrite map_loc_set_clean.
Qed.

Lemma replace_nans_again_witness :
  (well_formed papers_with_gap /\ In "Subjects" (columns papers_with_gap)
   /\ is_nan (cell_of (SText " ")) = false)
  /\ exists df',
       replace_nans_in_column papers_with_gap "Subjects" (SText " ") = Ok df'
       /\ Forall (fun row =>
                    is_nan (cell_at (columns df') row "Subjects") = false)
                 (data df')
       /\ replace_nans_in_column df' "Subjects" (SText " ") = Ok df'.
Proof.
  split; [table_expandable|].
  apply (replace_nans_again papers_with_gap "Subjects" (SText " "));
    table_expandable.
Defined.



End ReplaceNans.


(** ** More on the expander *)

Section ExpanderMore.

Import Pandas.

Ltac each_char c :=
  destruct c as [[] [] [] [] [] [] [] []].








(** *** Values *)

Lemma lstrip_again (s : string) : Str.lstrip (Str.lstrip s) = Str.lstrip s.
Proof.
  induction s as [|c s IH]; [reflexivity|]. cbn [Str.lstrip].
  destruct (Str.isspace c) eqn:Hc; [assumption|].
  cbn [Str.lstrip]. now rewrite Hc.
Qed.

Lemma isspace_lower_char (c : ascii) :
  Str.isspace (Str.lower_char c) = Str.isspace c.
Proof. each_char c; reflexivity. Qed.

Lemma lower_char_again (c : ascii) :
  Str.lower_char (Str.lower_char c) = Str.lower_char c.
Proof. each_char c; reflexivity. Qed.

Lemma lower_again (s : string) : Str.lower (Str.lower s) = Str.lower s.
Proof.
  induction s as [|c s IH]; [reflexivity|].
  cbn [Str.lower]. now rewrite lower_char_again, IH.
Qed.

Lemma lstrip_lower (s : string) :
  Str.lstrip (Str.lower s) = Str.lower (Str.lstrip s).
Proof.
  induction s as [|c s IH]; [reflexivity|].
  cbn [Str.lower Str.lstrip]. rewrite isspace_lower_char.
  destruct (Str.isspace c); [assumption | reflexivity].
Qed.

Lemma processed_clean (lower : bool) (a : string) :
  Str.lstrip (processed lower a) = processed lower a
  /\ (lower = true -> Str.lower (processed lower a) = processed lower a).
Proof.
  unfold processed. destruct lower.
  - split; [|intros _; apply lower_again].
    now rewrite lstrip_lower, lstrip_again.
  - split; [apply lstrip_again | discriminate].
Qed.

(** X13.  [lstrip] keeps the number of texts, none of its results starts with
    white space, and cleaning a cleaned list changes nothing. *)
Theorem lstrip_list_clean (list_of_strs : list string) (lower : bool) :
  List.length (lstrip list_of_strs lower) = List.length list_of_strs
  /\ Forall (fun a => Str.lstrip a = a
                      /\ (lower = true -> Str.lower a = a))
            (lstrip list_of_strs lower)
  /\ lstrip (lstrip list_of_strs lower) lower = lstrip list_of_strs lower.
Proof.
  rewrite !lstrip_processed. split; [apply length_map|]. split.
  - apply Forall_map, Forall_forall. intros a _. apply processed_clean.
  - rewrite map_map. apply map_ext. intros a. unfold processed at 1.
    destruct (processed_clean lower a) as [Hstrip Hlow].
    rewrite Hstrip. destruct lower; [now apply Hlow | reflexivity].
Qed.



(** *** Joining back *)

Lemma prefix_decompose (sep s : string) :
  prefix sep s = true -> exists rest, s = (sep ++ rest)%string.
Proof.
  revert s. induction sep as [|c sep IH]; intros s H.
  - now exists s.
  - destruct s as [|d s]; simpl in H; [discriminate|].
    destruct (ascii_dec c d) as [->|]; [|discriminate].
    destruct (IH s H) as [rest ->]. now exists rest.
Qed.

Lemma join_cons_char (sep : string) (c : ascii) (p : string)
    (ps : list string) :
  Str.join sep (String c p :: ps) = String c (Str.join sep (p :: ps)).
Proof. destruct ps; reflexivity. Qed.

Lemma join_split_from (sep : string) (n : nat) :
  sep <> EmptyString ->
  forall s, String.length s <= n ->
            Str.join sep (Str.split_from sep 0 s) = s.
Proof.
  intros Hsep. induction n as [|n IH]; intros s Hlen.
  - destruct s; [reflexivity | simpl in Hlen; lia].
  - destruct s as [|c s]; [reflexivity|].
    cbn [Str.split_from]. destruct (prefix sep (String c s)) eqn:Hpre.
    + destruct (prefix_decompose _ _ Hpre) as [rest Hrest].
      destruct sep as [|c0 sep0]; [congruence|].
      injection Hrest as <- ->.
      cbn [String.length]. rewrite Nat.sub_1_r. cbn [Nat.pred].
      rewrite split_from_skip.
      pose proof (split_from_nonempty (String c sep0) 0 rest) as Hne.
      assert (Hrec : Str.join (String c sep0)
                       (Str.split_from (String c sep0) 0 rest) = rest).
      { apply IH. simpl in Hlen. rewrite length_append in Hlen. lia. }
      destruct (Str.split_from (String c sep0) 0 rest) as [|p ps];
        [congruence|].
      change (Str.join (String c sep0) (EmptyString :: p :: ps))
        with (String c sep0 ++ Str.join (String c sep0) (p :: ps))%string.
      now rewrite Hrec.
    + pose proof (split_from_nonempty sep 0 s) as Hne.
      assert (Hrec : Str.join sep (Str.split_from sep 0 s) = s).
      { apply IH. simpl in Hlen. lia. }
      destruct (Str.split_from sep 0 s) as [|p ps]; [congruence|].
      rewrite join_cons_char. now rewrite Hrec.
Qed.

Lemma join_split (s sep : string) :
  sep <> EmptyString -> Str.join sep (Str.split_from sep 0 s) = s.
Proof.
  intros Hsep. now apply (join_split_from sep (String.length s)).
Qed.

(** X15.  With [lower] off and a separator that is split on as it is written
    (one character, or several without a character that is special to
    regular expressions), the expansion of a cell can be undone: when no
    piece starts with white space, the values of the rows of an input row
    are texts that, joined by the separator, give the target cell back. *)
Theorem expand_join_back (re : regex_engine) (df : DataFrame) (col : string)
    (ref_col : ref_arg) (sep : string) (p : nat) (i : Z) (row : list cell)
    (s : string) :
  expandable df col ref_col ->
  Str.literal sep = true ->
  nth_error (index df) p = Some i ->
  nth_error (data df) p = Some row ->
  cell_at (columns df) row col = Text s ->
  Forall (fun a => Str.lstrip a = a) (Str.split_from sep 0 s) ->
  exists out before after values,
    snd (split_column_with_multiple_entries re df col ref_col sep false)
    = Ok out
    /\ data out
       = before
         ++ map (fun a => Num i :: identifiers df (as_list ref_col) row
                                ++ [Text a])
                values
         ++ after
    /\ Str.join sep values = s.
Proof.
  intros H Hsep Hi Hrow Hcell Hclean.
  destruct (snd_expand_ok re df col ref_col sep false (Str.split_from sep 0)
              H (splitter_literal re sep Hsep))
    as (out & Hout & _ & Hdata).
  assert (Hnth : nth_error (combine (index df) (data df)) p = Some (i, row))
    by now apply nth_error_combine.
  destruct (flat_map_nth_error
              (fun ir => rows_of df col (as_list ref_col)
                                 (Str.split_from sep 0) false
                                 (fst ir) (snd ir)) _ _ _ Hnth)
    as (before & after & Hsplit).
  unfold rows_of in Hsplit at 2. cbn [fst snd] in Hsplit.
  rewrite Hcell in Hsplit. cbn [pieces] in Hsplit.
  exists out, before, after, (Str.split_from sep 0 s).
  split; [assumption|].
  split; [|apply join_split; now apply literal_nonempty].
  rewrite Hdata. unfold expanded. rewrite Hsplit. f_equal. f_equal.
  apply map_ext_in. intros a Ha. rewrite Forall_forall in Hclean.
  unfold processed. now rewrite (Hclean a Ha).
Qed.

Lemma expand_join_back_witness :
  (expandable papers_with_empties "Subjects" (RefStr "Citation")
   /\ Str.literal ", " = true
   /\ nth_error (index papers_with_empties) 0 = Some 0%Z
   /\ nth_error (data papers_with_empties) 0
      = Some [Text "A1"; Text ", 15, , 23, "]
   /\ cell_at (columns papers_with_empties)
              [Text "A1"; Text ", 15, , 23, "] "Subjects"
      = Text ", 15, , 23, "
   /\ Forall (fun a => Str.lstrip a = a)
             (Str.split_from ", " 0 ", 15, , 23, "))
  /\ exists out before after values,
       snd (split_column_with_multiple_entries no_regex papers_with_empties
              "Subjects" (RefStr "Citation") ", " false) = Ok out
       /\ data out
          = before
            ++ map (fun a =>
                      Num 0 :: identifiers papers_with_empties ["Citation"]
                                 [Text "A1"; Text ", 15, , 23, "]
                            ++ [Text a])
                   values
            ++ after
       /\ Str.join ", " values = ", 15, , 23, ".
Proof.
  split; [table_expandable|].
  apply (expand_join_back no_regex papers_with_empties "Subjects"
           (RefStr "Citation") ", " 0 0%Z [Text "A1"; Text ", 15, , 23, "]
           ", 15, , 23, ");
    table_expandable.
Defined.

End ExpanderMore.


(** ** More on the main domains *)

Section DomainsMore.

Import Pandas.

Lemma extract_main_domains_ok (df : DataFrame) :
  well_formed df ->
  Forall (fun k => In k (columns df))
         ["Domain 1"; "Domain 2"; "Domain 3"; "Domain 4"] ->
  extract_main_domains df
  = Ok {| columns := labels_after "Main domain" (columns df);
          index := index df;
          data :=
            map (fun row =>
                   set_cell (columns df) "Main domain"
                     (first_main_domain
                        (map (cell_at (columns df) row)
                             ["Domain 1"; "Domain 2"; "Domain 3"; "Domain 4"]))
                     row)
                (data df) |}.
Proof.
  intros Hwf Hin. unfold extract_main_domains.
  rewrite (select_present df _ Hwf Hin). cbn [bind data].
  rewrite map_map.
  rewrite (setitem_map df "Main domain"
             (fun row =>
                main_domain
                  (map (cell_at (columns df) row)
                       ["Domain 1"; "Domain 2"; "Domain 3"; "Domain 4"]))).
  f_equal. f_equal. apply map_ext. intros row.
  now rewrite main_domain_first.
Qed.

(** X16.  Without one of the four domain columns the call raises
    [KeyError]. *)
Theorem extract_main_domains_missing (df : DataFrame) (k : string) :
  In k ["Domain 1"; "Domain 2"; "Domain 3"; "Domain 4"] ->
  ~ In k (columns df) ->
  extract_main_domains df = Raise KeyError.
Proof.
  intros Hk Habsent. unfold extract_main_domains.
  now rewrite (select_absent df _ k Hk Habsent).
Qed.

Lemma extract_main_domains_missing_witness :
  (In "Domain 1" ["Domain 1"; "Domain 2"; "Domain 3"; "Domain 4"]
   /\ ~ In "Domain 1" (columns papers))
  /\ extract_main_domains papers = Raise KeyError.
Proof.
  split; [table_facts|].
  apply (extract_main_domains_missing papers "Domain 1"); table_facts.
Defined.

Lemma first_main_domain_closed (cells : list cell) :
  exists s,
    first_main_domain cells = Text s /\ In s ("Others" :: main_domains).
Proof.
  induction cells as [|x cells IH]; [exists "Others"; split; [reflexivity | now left]|].
  cbn [first_main_domain]. destruct (isin main_domains x) eqn:Hx; [|exact IH].
  destruct x as [s| | |]; try discriminate. exists s. split; [reflexivity|].
  right. cbn [isin] in Hx. apply existsb_exists in Hx.
  destruct Hx as (d & Hd & Heq). apply String.eqb_eq in Heq. now subst.
Qed.

(** X17.  The main domain of every row is a text, and one of eight: [Others]
    or one of the seven main domains. *)
Theorem extract_main_domains_closed (df : DataFrame) :
  well_formed df ->
  Forall (fun k => In k (columns df))
         ["Domain 1"; "Domain 2"; "Domain 3"; "Domain 4"] ->
  exists df',
    extract_main_domains df = Ok df'
    /\ List.length (data df') = List.length (data df)
    /\ Forall (fun row' =>
                 exists s,
                   cell_at (columns df') row' "Main domain" = Text s
                   /\ In s ("Others" :: main_domains))
              (data df').
Proof.
  intros Hwf Hin. rewrite (extract_main_domains_ok df Hwf Hin).
  eexists. split; [reflexivity|]. cbn [columns data].
  split; [apply length_map|]. apply Forall_map.
  destruct Hwf as (Hnd & _ & Hrows).
  eapply Forall_impl; [|exact Hrows]. intros row Hrow. cbv beta in *.
  rewrite cell_at_set_same by assumption. apply first_main_domain_closed.
Qed.

Lemma extract_main_domains_closed_witness :
  (well_formed papers_by_domain
   /\ Forall (fun k => In k (columns papers_by_domain))
             ["Domain 1"; "Domain 2"; "Domain 3"; "Domain 4"])
  /\ exists df',
       extract_main_domains papers_by_domain = Ok df'
       /\ List.length (data df') = List.length (data papers_by_domain)
       /\ Forall (fun row' =>
                    exists s,
                      cell_at (columns df') row' "Main domain" = Text s
                      /\ In s ("Others" :: main_domains))
                 (data df').
Proof.
  split; [table_expandable|].
  apply (extract_main_domains_closed papers_by_domain); table_expandable.
Defined.

(** X18.  The call keeps the index, the rows and every column it found: the
    labels are those of the table, with [Main domain] after the last when
    the table had no such column, and under any other label every row
    holds what it held. *)
Theorem extract_main_domains_frame (df : DataFrame) :
  well_formed df ->
  Forall (fun k => In k (columns df))
         ["Domain 1"; "Domain 2"; "Domain 3"; "Domain 4"] ->
  exists df',
    extract_main_domains df = Ok df'
    /\ columns df' = labels_after "Main domain" (columns df)
    /\ index df' = index df
    /\ well_formed df'
    /\ forall k, k <> "Main domain" ->
         map (fun row' => cell_at (columns df') row' k) (data df')
         = map (fun row => cell_at (columns df) row k) (data df).
Proof.
  intros Hwf Hin. rewrite (extract_main_domains_ok df Hwf Hin).
  eexists. split; [reflexivity|]. unfold well_formed.
  cbn [columns index data]. destruct Hwf as (Hnd & Hlen & Hrows).
  rewrite length_map. repeat split; trivial.
  - now apply NoDup_labels_after.
  - apply Forall_map. eapply Forall_impl; [|exact Hrows].
    intros row Hrow. now apply length_set_cell.
  - intros k Hk. rewrite map_map. apply map_ext_in. intros row Hrow.
    unfold cell_at. rewrite lookup_set_other; [reflexivity | assumption |].
    rewrite Forall_forall in Hrows. now apply Hrows.
Qed.

Lemma extract_main_domains_frame_witness :
  (well_formed papers_by_domain
   /\ Forall (fun k => In k (columns papers_by_domain))
             ["Domain 1"; "Domain 2"; "Domain 3"; "Domain 4"])
  /\ exists df',
       extract_main_domains papers_by_domain = Ok df'
       /\ columns df' = labels_after "Main domain" (columns papers_by_domain)
       /\ index df' = index papers_by_domain
       /\ well_formed df'
       /\ forall k, k <> "Main domain" ->
            map (fun row' => cell_at (columns df') row' k) (data df')
            = map (fun row => cell_at (columns papers_by_domain) row k)
                  (data papers_by_domain).
Proof.
  split; [table_expandable|].
  apply (extract_main_domains_frame papers_by_domain); table_expandable.
Defined.

(** X19.  Labelling a labelled table again changes nothing. *)
Theorem extract_main_domains_again (df : DataFrame) :
  well_formed df ->
  Forall (fun k => In k (columns df))
         ["Domain 1"; "Domain 2"; "Domain 3"; "Domain 4"] ->
  exists df',
    extract_main_domains df = Ok df'
    /\ extract_main_domains df' = Ok df'.
Proof.
  intros Hwf Hin. rewrite (extract_main_domains_ok df Hwf Hin).
  eexists. split; [reflexivity|].
  pose proof Hwf as (Hnd & Hlen & Hrows).
  rewrite extract_main_domains_ok.
  - cbn [columns index data]. f_equal. f_equal.
    + unfold labels_after at 1.
      replace (has_label "Main domain" (labels_after "Main domain" (columns df)))
        with true; [reflexivity|].
      symmetry. apply has_label_In, In_labels_after. now right.
    + rewrite map_map. apply map_ext_in. intros row Hrow.
      rewrite Forall_forall in Hrows. specialize (Hrows row Hrow).
      replace (map (cell_at (labels_after "Main domain" (columns df))
                      (set_cell (columns df) "Main domain" _ row))
                   ["Domain 1"; "Domain 2"; "Domain 3"; "Domain 4"])
        with (map (cell_at (columns df) row)
                  ["Domain 1"; "Domain 2"; "Domain 3"; "Domain 4"]).
      * now apply set_cell_again.
      * apply map_ext_in. intros k Hk. unfold cell_at.
        rewrite lookup_set_other; [reflexivity | | assumption].
        intros ->. simpl in Hk. intuition discriminate.
  - unfold well_formed. cbn [columns index data]. rewrite length_map.
    repeat split; trivial.
    + now apply NoDup_labels_after.
    + apply Forall_map. eapply Forall_impl; [|exact Hrows].
      intros row Hrow. now apply length_set_cell.
  - cbn [columns]. eapply Forall_impl; [|exact Hin].
    intros k Hk. apply In_labels_after. now left.
Qed.

Lemma extract_main_domains_again_witness :
  (well_formed papers_by_domain
   /\ Forall (fun k => In k (columns papers_by_domain))
             ["Domain 1"; "Domain 2"; "Domain 3"; "Domain 4"])
  /\ exists df',
       extract_main_domains papers_by_domain = Ok df'
       /\ extract_main_domains df' = Ok df'.
Proof.
  split; [table_expandable|].
  apply (extract_main_domains_again papers_by_domain); table_expandable.
Defined.

(** *** Model types *)

Lemma contains_middle (sub a b : string) :
  Py.contains sub (a ++ sub ++ b) = true.
Proof.
  induction a as [|c a IH].
  - change (EmptyString ++ sub ++ b)%string with (sub ++ b)%string.
    destruct (sub ++ b)%string eqn:E; cbn [Py.contains];
      rewrite <- E, prefix_append; reflexivity.
  - change (String c a ++ sub ++ b)%string with (String c (a ++ sub ++ b)).
    cbn [Py.contains]. rewrite IH. apply orb_true_r.
Qed.

(** X20.  A model name in which [arch] occurs is a proposed model whatever
    else occurs in it; one without [arch] in which [trad] occurs is a
    traditional baseline. *)
Theorem extract_model_type_priority (a b : string) :
  extract_model_type (Text (a ++ "arch" ++ b)) = Ok "Proposed"
  /\ (Py.contains "arch" (a ++ "trad" ++ b) = false ->
      extract_model_type (Text (a ++ "trad" ++ b))
      = Ok "Baseline (traditional)").
Proof.
  unfold extract_model_type. cbn [bind]. split.
  - now rewrite contains_middle.
  - intros ->. now rewrite contains_middle.
Qed.

Lemma extract_model_type_priority_witness :
  extract_model_type (Text ("my_" ++ "arch" ++ "_dl")) = Ok "Proposed"
  /\ (Py.contains "arch" ("a " ++ "trad" ++ " svm") = false
      /\ extract_model_type (Text ("a " ++ "trad" ++ " svm"))
         = Ok "Baseline (traditional)").
Proof.
  split.
  - apply (proj1 (extract_model_type_priority "my_" "_dl")).
  - split; [reflexivity|].
    apply (proj2 (extract_model_type_priority "a " " svm")). reflexivity.
Defined.

End DomainsMore.
